(** * Chess ETL: normalisation pipeline and perspective projection

    A shallow embedding of the domain logic of the repository:

    - [utils.py]: [validate_chess_data], [parse_pgn_game];
    - [chess_process.py]: [ChessProcessor.extract_game_data],
      [process_json_file], [process_all_files];
    - [perspective_data_generator.py]: [generate_row] and the projection loop
      of [create_perspective_data].

    Modelling conventions.

    - A raw game is the JSON object of the Chess.com archive API.  It is
      modelled as a record whose fields are all optional ([None] = the key is
      absent) and carry the type the API gives them: strings for usernames,
      outcome tokens, time control, url and notation text, integers for
      ratings and the end timestamp.
    - Python strings are [string]s; [lower], [strip], [title] and [int] are
      modelled on ASCII characters.
    - Exceptions are explicit: a computation that may raise returns a
      [PyResult]; [try]/[except] is a match on that result.
    - The libraries the code calls are interfaces: python-chess ([ChessLib]),
      [datetime] ([DatetimeLib]) and the sort of the table library
      ([sort_values], with the contract its default algorithm documents:
      the result is ordered and is a rearrangement of the input). *)

From Stdlib Require Import Bool Ascii String List ZArith Lia.
From Stdlib Require Import Sorting.Sorted Sorting.Permutation.
Import ListNotations.

Local Open Scope string_scope.
Local Open Scope Z_scope.

(* ================================================================== *)
(** ** Python results: values and exceptions *)
(* ================================================================== *)

Inductive PyExn : Type :=
| TypeError
| ValueError
| OverflowError
| OSError
| KeyError
| AssertionError.

Inductive PyResult (A : Type) : Type :=
| Ok (a : A)
| Raise (e : PyExn).

Arguments Ok {A} a.
Arguments Raise {A} e.

Definition bind {A B : Type} (m : PyResult A) (k : A -> PyResult B)
  : PyResult B :=
  match m with
  | Ok a => k a
  | Raise e => Raise e
  end.

Notation "x <- m ;; k" := (bind m (fun x => k))
  (at level 61, m at next level, right associativity).

(** [try: ... except: ...] around a computation, with a handler that
    cannot itself fail. *)
Definition try_except {A : Type} (m : PyResult A) (handler : A) : A :=
  match m with
  | Ok a => a
  | Raise _ => handler
  end.

(** [try: ... except Exception: return None] at function level. *)
Definition catch_none {A : Type} (m : PyResult A) : option A :=
  match m with
  | Ok a => Some a
  | Raise _ => None
  end.

(* ================================================================== *)
(** ** Python string operations (ASCII) *)
(* ================================================================== *)

Module PyStr.

Definition is_upper (c : ascii) : bool :=
  let n := nat_of_ascii c in (Nat.leb 65 n && Nat.leb n 90)%bool.

Definition is_lower (c : ascii) : bool :=
  let n := nat_of_ascii c in (Nat.leb 97 n && Nat.leb n 122)%bool.

Definition is_alpha (c : ascii) : bool := (is_upper c || is_lower c)%bool.

Definition is_digit (c : ascii) : bool :=
  let n := nat_of_ascii c in (Nat.leb 48 n && Nat.leb n 57)%bool.

(** Whitespace as [str.strip] sees it, within ASCII:
    tab, newline, vertical tab, form feed, carriage return,
    the separators 28-31 and the space. *)
Definition is_space (c : ascii) : bool :=
  let n := nat_of_ascii c in
  ((Nat.leb 9 n && Nat.leb n 13) || (Nat.leb 28 n && Nat.leb n 32))%bool.

Definition to_lower (c : ascii) : ascii :=
  if is_upper c then ascii_of_nat (nat_of_ascii c + 32) else c.

Definition to_upper (c : ascii) : ascii :=
  if is_lower c then ascii_of_nat (nat_of_ascii c - 32) else c.

(** [s.lower()] *)
Fixpoint lower (s : string) : string :=
  match s with
  | EmptyString => EmptyString
  | String c rest => String (to_lower c) (lower rest)
  end.

(** [s.startswith(p)] *)
Fixpoint startswith (p s : string) : bool :=
  match p, s with
  | EmptyString, _ => true
  | String _ _, EmptyString => false
  | String a p', String b s' => (Ascii.eqb a b && startswith p' s')%bool
  end.

(** [sub in s] *)
Fixpoint contains (sub s : string) : bool :=
  (startswith sub s ||
   match s with
   | EmptyString => false
   | String _ rest => contains sub rest
   end)%bool.

(** [s.split(sep)] for a non-empty separator: the pieces between
    successive, non-overlapping occurrences of [sep], left to right.
    [cur] holds the piece being read; [skip] counts the characters of
    a separator occurrence still to be passed over. *)
Fixpoint split_aux (sep : string) (s : string) (cur : string) (skip : nat)
  : list string :=
  match s with
  | EmptyString => [cur]
  | String c rest =>
      match skip with
      | S k => split_aux sep rest cur k
      | O =>
          if startswith sep s
          then cur :: split_aux sep rest EmptyString (String.length sep - 1)
          else split_aux sep rest (cur ++ String c EmptyString) O
      end
  end.

Definition split (sep s : string) : list string :=
  split_aux sep s EmptyString O.

(** [sep.join(parts)] *)
Fixpoint join (sep : string) (parts : list string) : string :=
  match parts with
  | [] => EmptyString
  | [p] => p
  | p :: rest => p ++ sep ++ join sep rest
  end.

(** [s.replace(old, new)] for a non-empty [old]. *)
Definition replace (old new s : string) : string :=
  join new (split old s).

Fixpoint lstrip (s : string) : string :=
  match s with
  | EmptyString => EmptyString
  | String c rest => if is_space c then lstrip rest else s
  end.

Fixpoint rev_string (s acc : string) : string :=
  match s with
  | EmptyString => acc
  | String c rest => rev_string rest (String c acc)
  end.

Definition rstrip (s : string) : string :=
  rev_string (lstrip (rev_string s EmptyString)) EmptyString.

(** [s.strip()] *)
Definition strip (s : string) : string := rstrip (lstrip s).

(** [s.title()]: a letter that follows a letter is lower-cased, any
    other letter is upper-cased. *)
Fixpoint title_aux (prev_alpha : bool) (s : string) : string :=
  match s with
  | EmptyString => EmptyString
  | String c rest =>
      String (if prev_alpha then to_lower c else to_upper c)
             (title_aux (is_alpha c) rest)
  end.

Definition title (s : string) : string := title_aux false s.

(** Digits of an [int] literal after sign and whitespace are removed:
    decimal digits, single underscores allowed between digits only.
    [acc] is the value read so far, [prev_digit] tells whether the
    previous character was a digit. *)
Fixpoint digits_aux (s : string) (acc : Z) (prev_digit : bool) : option Z :=
  match s with
  | EmptyString => if prev_digit then Some acc else None
  | String c rest =>
      if is_digit c
      then digits_aux rest (10 * acc + Z.of_nat (nat_of_ascii c - 48)) true
      else if (Ascii.eqb c "_" && prev_digit)%bool
           then match rest with
                | String d _ =>
                    if is_digit d then digits_aux rest acc false else None
                | EmptyString => None
                end
           else None
  end.

(** Whitespace as [int] skips it around an ASCII literal: tab, newline,
    vertical tab, form feed, carriage return and the space.  The
    separators 28-31, which [str.strip] removes, are not skipped. *)
Definition is_int_space (c : ascii) : bool :=
  let n := nat_of_ascii c in
  ((Nat.leb 9 n && Nat.leb n 13) || Nat.eqb n 32)%bool.

Fixpoint lstrip_int (s : string) : string :=
  match s with
  | EmptyString => EmptyString
  | String c rest => if is_int_space c then lstrip_int rest else s
  end.

Definition strip_int (s : string) : string :=
  rev_string (lstrip_int (rev_string (lstrip_int s) EmptyString)) EmptyString.

(** Number of decimal digits in a literal. *)
Fixpoint digit_count (s : string) : nat :=
  match s with
  | EmptyString => O
  | String c rest => if is_digit c then S (digit_count rest) else digit_count rest
  end.

(** The interpreter's default limit on the digits of a decimal literal
    that [int] converts ([sys.int_info.default_max_str_digits]). *)
Definition max_str_digits : nat := 4300.

(** [int(s)]: [ValueError] unless the text is an optionally signed
    decimal literal of at most [max_str_digits] digits, surrounding
    whitespace ignored. *)
Definition int (s : string) : PyResult Z :=
  let body := strip_int s in
  if Nat.ltb max_str_digits (digit_count body) then Raise ValueError
  else
    let parsed :=
      match body with
      | String "-" rest => option_map Z.opp (digits_aux rest 0 false)
      | String "+" rest => digits_aux rest 0 false
      | _ => digits_aux body 0 false
      end in
    match parsed with
    | Some z => Ok z
    | None => Raise ValueError
    end.

(** Truthiness of a string: non-empty. *)
Definition truthy (s : string) : bool :=
  match s with
  | EmptyString => false
  | String _ _ => true
  end.

(** [d.get(key, default)] on an optional entry. *)
Definition get {A : Type} (entry : option A) (default : A) : A :=
  match entry with
  | Some v => v
  | None => default
  end.

End PyStr.

Example split_plus : PyStr.split "+" "180+2" = ["180"; "2"].
Proof. reflexivity. Qed.

Example split_openings :
  PyStr.split "/openings/" "https://www.chess.com/openings/Sicilian-Defense"
  = ["https://www.chess.com"; "Sicilian-Defense"].
Proof. reflexivity. Qed.

Example replace_dots : PyStr.replace "..." " " "a...b....c" = "a b .c".
Proof. reflexivity. Qed.

Example title_words : PyStr.title "queens pawn OPENING 1.d4" = "Queens Pawn Opening 1.D4".
Proof. reflexivity. Qed.

Example int_plain : PyStr.int " 600 " = Ok 600.
Proof. reflexivity. Qed.

Example int_daily : PyStr.int "1/86400" = Raise ValueError.
Proof. reflexivity. Qed.

Example int_empty : PyStr.int "" = Raise ValueError.
Proof. reflexivity. Qed.

Example int_separator :
  PyStr.int (String (ascii_of_nat 28) "600") = Raise ValueError.
Proof. reflexivity. Qed.

(* ================================================================== *)
(** ** External libraries as interfaces *)
(* ================================================================== *)

(** python-chess, as far as [parse_pgn_game] uses it.  [read_game] yields
    [None] at end of input and a game otherwise; [game_board] builds the
    starting position from the headers and raises [ValueError] when the
    [FEN] or [Variant] header is not one the library supports;
    [board_push] plays one move on a board. *)
Class ChessLib : Type := {
  Game : Type;
  Board : Type;
  Move : Type;
  read_game : string -> PyResult (option Game);
  headers_get : Game -> string -> option string;
  game_board : Game -> PyResult Board;
  mainline_moves : Game -> list Move;
  board_push : Board -> Move -> PyResult Board;
  read_game_eof : read_game "" = Ok None
}.

(** [datetime], as far as [extract_game_data] uses it.  The conversion is
    in local time and raises on timestamps out of the platform's range. *)
Class DatetimeLib : Type := {
  datetime : Type;
  fromtimestamp : Z -> PyResult datetime;
  strftime : datetime -> string -> string;
  dt_year : datetime -> Z
}.

(** A cell of a text column of a table: a string, or the float [nan] the
    table library puts where a row has no value. *)
Inductive Cell : Type :=
| NaN
| Str (s : string).

(** The table library, as far as the pipeline uses it.  [sort_values key]
    is [df.sort_values(column, ascending=True)] with the default sort
    kind, whose documented contract is that the result is in ascending
    order of the column and holds the same rows; [value_counts_head n] is
    [column.value_counts().head(n).index.tolist()]. *)
Class TableLib : Type := {
  sort_values : forall {A : Type}, (A -> Z) -> list A -> list A;
  value_counts_head : nat -> list Cell -> list string;
  sort_values_ordered :
    forall (A : Type) (key : A -> Z) (l : list A),
      StronglySorted (fun a b => key a <= key b) (sort_values key l);
  sort_values_perm :
    forall (A : Type) (key : A -> Z) (l : list A),
      Permutation l (sort_values key l)
}.

(* ================================================================== *)
(** ** utils.py *)
(* ================================================================== *)

(** The dictionary [game_info] of [parse_pgn_game]. *)
Record NotationInfo : Type := {
  ni_move_count : Z;
  ni_eco_code : option string;
  ni_opening_name : option string;
  ni_result : option string
}.

Definition zero_info : NotationInfo :=
  {| ni_move_count := 0;
     ni_eco_code := None;
     ni_opening_name := None;
     ni_result := None |}.

(** Truthiness of an [Optional[str]]. *)
Definition opt_truthy (v : option string) : bool :=
  match v with
  | None => false
  | Some s => PyStr.truthy s
  end.

(** The fallback of [parse_pgn_game] for the opening name, from the
    [ECOUrl] header. *)
Definition opening_from_url (eco_url : string) : option string :=
  if PyStr.truthy eco_url then
    match PyStr.split "/openings/" eco_url with
    | _ :: part1 :: _ =>
        let raw_name := PyStr.replace "-" " " part1 in
        Some (PyStr.title (PyStr.strip (PyStr.replace "..." " " raw_name)))
    | _ => None
    end
  else None.

Section Parser.

Context {chess : ChessLib}.

(** [for move in game.mainline_moves(): board.push(move); move_count += 1] *)
Fixpoint replay (board : Board) (moves : list Move) (move_count : Z)
  : PyResult Z :=
  match moves with
  | [] => Ok move_count
  | move :: rest =>
      board' <- board_push board move ;;
      replay board' rest (move_count + 1)
  end.

(** The body of the [try] block of [parse_pgn_game], started on the
    dictionary [game_info]: it returns the dictionary as the block left
    it, together with the way the block ended ([Ok] for a normal end or
    the early [return], [Raise] for an exception). *)
Definition parse_body (pgn_string : string) (game_info : NotationInfo)
  : PyResult unit * NotationInfo :=
  match read_game pgn_string with
  | Raise e => (Raise e, game_info)
  | Ok None => (Ok tt, game_info)
  | Ok (Some game) =>
      let eco := headers_get game "ECO" in
      let opening := headers_get game "Opening" in
      let res := headers_get game "Result" in
      let opening :=
        if negb (opt_truthy opening) then
          match opening_from_url (PyStr.get (headers_get game "ECOUrl") "") with
          | Some name => Some name
          | None => opening
          end
        else opening in
      let game_info :=
        {| ni_move_count := ni_move_count game_info;
           ni_eco_code := eco;
           ni_opening_name := opening;
           ni_result := res |} in
      match game_board game with
      | Raise e => (Raise e, game_info)
      | Ok board =>
          match replay board (mainline_moves game) 0 with
          | Raise e => (Raise e, game_info)
          | Ok move_count =>
              (Ok tt,
               {| ni_move_count := move_count;
                  ni_eco_code := ni_eco_code game_info;
                  ni_opening_name := ni_opening_name game_info;
                  ni_result := ni_result game_info |})
          end
      end
  end.

(** [parse_pgn_game]: the [except] clause logs and falls through to
    [return game_info]. *)
Definition parse_pgn_game (pgn_string : string) : NotationInfo :=
  snd (parse_body pgn_string zero_info).

(** Whether the [try] block of [parse_pgn_game] raised. *)
Definition parse_failed (pgn_string : string) : bool :=
  match fst (parse_body pgn_string zero_info) with
  | Ok _ => false
  | Raise _ => true
  end.

End Parser.

(** *** Raw game records *)

(** A player sub-record of a raw game: keys [username], [rating],
    [result]. *)
Record RawPlayer : Type := {
  p_username : option string;
  p_rating : option Z;
  p_result : option string
}.

(** A raw game record: keys [white], [black], [end_time], [time_control],
    [url], [pgn], [result]. *)
Record RawGame : Type := {
  g_white : option RawPlayer;
  g_black : option RawPlayer;
  g_end_time : option Z;
  g_time_control : option string;
  g_url : option string;
  g_pgn : option string;
  g_result : option string
}.

(** [field in game_data] *)
Definition has_key (game_data : RawGame) (field : string) : bool :=
  if String.eqb field "white" then
    match g_white game_data with Some _ => true | None => false end
  else if String.eqb field "black" then
    match g_black game_data with Some _ => true | None => false end
  else if String.eqb field "end_time" then
    match g_end_time game_data with Some _ => true | None => false end
  else if String.eqb field "time_control" then
    match g_time_control game_data with Some _ => true | None => false end
  else if String.eqb field "url" then
    match g_url game_data with Some _ => true | None => false end
  else if String.eqb field "pgn" then
    match g_pgn game_data with Some _ => true | None => false end
  else if String.eqb field "result" then
    match g_result game_data with Some _ => true | None => false end
  else false.

Definition required_fields : list string :=
  ["white"; "black"; "end_time"; "pgn"].

(** The loop of [validate_chess_data]. *)
Fixpoint validate_fields (fields : list string) (game_data : RawGame) : bool :=
  match fields with
  | [] => true
  | field :: rest =>
      if negb (has_key game_data field) then false
      else validate_fields rest game_data
  end.

Definition validate_chess_data (game_data : RawGame) : bool :=
  validate_fields required_fields game_data.

(* ================================================================== *)
(** ** chess_process.py *)
(* ================================================================== *)

(** The dictionary [extracted] that [extract_game_data] returns. *)
Record CanonicalRow : Type := {
  white_username : string;
  black_username : string;
  white_rating : Z;
  black_rating : Z;
  result : string;
  end_time : Z;
  time_control : string;
  url : string;
  pgn : string;
  end_date : string;
  end_datetime : string;
  year : Z;
  month : string;
  rating_diff : Z;
  game_type : string;
  move_count : Z;
  eco_code : option string;
  opening_name : option string;
  pgn_result : option string;
  winner : string;
  result_category : string;
  white_win : bool;
  black_win : bool;
  is_draw : bool
}.

(** [d[key]] *)
Definition getitem {A : Type} (entry : option A) : PyResult A :=
  match entry with
  | Some v => Ok v
  | None => Raise KeyError
  end.

(** The empty dictionary [{}] used as default for a player sub-record. *)
Definition empty_player : RawPlayer :=
  {| p_username := None; p_rating := None; p_result := None |}.

(** [str(game.get(side, {}).get('result', '')).lower()] *)
Definition outcome_token (side : option RawPlayer) : string :=
  PyStr.lower (PyStr.get (p_result (PyStr.get side empty_player)) "").

Definition draw_tokens : list string :=
  ["agreed"; "repetition"; "stalemate"; "insufficient"; "50move";
   "timevsinsufficient"].

(** [r in draw_tokens] *)
Definition is_draw_token (r : string) : bool :=
  existsb (String.eqb r) draw_tokens.

(** Game type from the time control (the [try]/[except] of
    [extract_game_data]). *)
Definition classify_time_control (time_control : string) : string :=
  try_except
    (base_time <- PyStr.int (hd "" (PyStr.split "+" time_control)) ;;
     Ok (if base_time <=? 180 then "bullet"
         else if base_time <=? 600 then "blitz"
         else "rapid"))
    (if PyStr.contains "/" time_control then "daily" else "unknown").

(** The outcome ladder of [extract_game_data]: winner, result and result
    category.  [pgn_result_entry] is the entry of [extracted] under the key
    [pgn_result] ([None] = no such key, [Some v] = the key holds [v], where
    [v] may be Python's [None]).  In the last rule the membership test
    ['1/2-1/2' in extracted['result']] raises [TypeError] when the result
    is [None]. *)
Definition resolve_outcome
    (white_name black_name white_result black_result : string)
    (pgn_result_entry : option (option string))
  : PyResult (string * string * string) :=
  if String.eqb white_result "win" then
    Ok (white_name, "1-0", black_result)
  else if String.eqb black_result "win" then
    Ok (black_name, "0-1", white_result)
  else if existsb is_draw_token [white_result; black_result] then
    Ok ("draw", "1/2-1/2", white_result)
  else
    match PyStr.get pgn_result_entry (Some "1/2-1/2") with
    | None => Raise TypeError
    | Some res =>
        Ok (if PyStr.contains "1/2-1/2" res then "draw" else "",
            res,
            white_result ++ "/" ++ black_result)
    end.

Section Normalizer.

Context {chess : ChessLib} {clock : DatetimeLib}.

(** Date parts of the end timestamp: [end_date], [end_datetime], [year],
    [month]. *)
Definition time_fields (t : Z) : string * string * Z * string :=
  if negb (t =? 0) then
    try_except
      (dt <- fromtimestamp t ;;
       Ok (strftime dt "%Y-%m-%d", strftime dt "%Y-%m-%d %H:%M:%S",
           dt_year dt, strftime dt "%Y-%m"))
      ("", "", 0, "")
  else ("", "", 0, "").

(** The body of the [try] block of [extract_game_data], after the
    validation.  The entry [result] first copied from the raw game is
    overwritten by every rule of the ladder. *)
Definition extract_body (game : RawGame) : PyResult CanonicalRow :=
  white <- getitem (g_white game) ;;
  black <- getitem (g_black game) ;;
  let white_name := PyStr.get (p_username white) "" in
  let black_name := PyStr.get (p_username black) "" in
  let white_elo := PyStr.get (p_rating white) 0 in
  let black_elo := PyStr.get (p_rating black) 0 in
  let t := PyStr.get (g_end_time game) 0 in
  let tc := PyStr.get (g_time_control game) "" in
  let notation := PyStr.get (g_pgn game) "" in
  let '(date, date_time, yr, mon) := time_fields t in
  let pgn_info :=
    if PyStr.truthy notation then parse_pgn_game notation else zero_info in
  (* the key [pgn_result] is set by either branch of the update *)
  let pgn_result_entry := Some (ni_result pgn_info) in
  let white_result := outcome_token (g_white game) in
  let black_result := outcome_token (g_black game) in
  outcome <- resolve_outcome white_name black_name
                             white_result black_result pgn_result_entry ;;
  let '(win, res, category) := outcome in
  Ok {| white_username := white_name;
        black_username := black_name;
        white_rating := white_elo;
        black_rating := black_elo;
        result := res;
        end_time := t;
        time_control := tc;
        url := PyStr.get (g_url game) "";
        pgn := notation;
        end_date := date;
        end_datetime := date_time;
        year := yr;
        month := mon;
        rating_diff := white_elo - black_elo;
        game_type := classify_time_control tc;
        move_count := ni_move_count pgn_info;
        eco_code := ni_eco_code pgn_info;
        opening_name := ni_opening_name pgn_info;
        pgn_result := ni_result pgn_info;
        winner := win;
        result_category := category;
        white_win := String.eqb win white_name;
        black_win := String.eqb win black_name;
        is_draw := String.eqb win "draw" |}.

(** [ChessProcessor.extract_game_data] *)
Definition extract_game_data (game : RawGame) : option CanonicalRow :=
  if negb (validate_chess_data game) then None
  else catch_none (extract_body game).

End Normalizer.

(** A raw archive file as [load_json_safely] returns it: the JSON object,
    of which only the key [games] is read ([None] = no such key). *)
Record ArchiveFile : Type := {
  games : option (list RawGame)
}.

(** [df.drop_duplicates(subset=[column], keep='first')]: a row is dropped
    when its key was seen on an earlier row.  [seen] holds the keys met so
    far. *)
Fixpoint drop_duplicates_from {A : Type} (key : A -> string)
    (seen : list string) (rows : list A) : list A :=
  match rows with
  | [] => []
  | r :: rest =>
      if existsb (String.eqb (key r)) seen
      then drop_duplicates_from key seen rest
      else r :: drop_duplicates_from key (key r :: seen) rest
  end.

Definition drop_duplicates {A : Type} (key : A -> string) (rows : list A)
  : list A :=
  drop_duplicates_from key [] rows.

Section Builder.

Context {chess : ChessLib} {clock : DatetimeLib} {table : TableLib}.

(** The loop of [process_json_file]: a row is appended when
    [extract_game_data] returned one. *)
Definition append_extracted (processed_games : list CanonicalRow)
    (game : RawGame) : list CanonicalRow :=
  match extract_game_data game with
  | Some extracted => (processed_games ++ [extracted])%list
  | None => processed_games
  end.

(** [ChessProcessor.process_json_file], on the outcome of
    [load_json_safely] ([None] = the file could not be loaded). *)
Definition process_json_file (data : option ArchiveFile)
  : list CanonicalRow :=
  match data with
  | None => []
  | Some d => fold_left append_extracted (PyStr.get (games d) []) []
  end.

(** [all_games] after the loop over the files. *)
Definition collect_games (json_files : list (option ArchiveFile))
  : list CanonicalRow :=
  fold_left (fun all_games data => (all_games ++ process_json_file data)%list)
            json_files [].

(** [ChessProcessor.process_all_files], on the contents of the files in
    the order [list_json_files] gives them.  The empty table stands for
    [pd.DataFrame()]. *)
Definition process_all_files (json_files : list (option ArchiveFile))
  : list CanonicalRow :=
  match json_files with
  | [] => []
  | _ :: _ =>
      match collect_games json_files with
      | [] => []
      | all_games =>
          let df := drop_duplicates url all_games in
          sort_values end_time df
      end
  end.

End Builder.

(* ================================================================== *)
(** ** perspective_data_generator.py *)
(* ================================================================== *)

Module Perspective.

(** A row of the table [df] that [create_perspective_data] iterates over;
    only the columns [generate_row] reads. *)
Record CsvRow : Type := {
  csv_white_username : Cell;
  csv_black_username : Cell;
  csv_white_rating : Z;
  csv_black_rating : Z;
  csv_winner : Cell;
  csv_end_date : Cell;
  csv_end_time : Z;
  csv_end_datetime : Cell;
  csv_game_type : Cell;
  csv_opening_name : Cell;
  csv_move_count : Z;
  csv_url : Cell
}.

(** The dictionary [generate_row] returns. *)
Record Row : Type := {
  game_date : Cell;
  game_time : Z;
  end_datetime : Cell;
  player_name : Cell;
  opponent_name : Cell;
  player_rating : Z;
  opponent_rating : Z;
  rating_diff : Z;
  difficulty_category : string;
  result_status : string;
  game_type : Cell;
  opening_name : Cell;
  move_count : Z;
  player_color : string;
  game_url : Cell
}.

(** A row of the perspective table, with the three flag columns. *)
Record BiRow : Type := {
  fields : Row;
  is_win : Z;
  is_loss : Z;
  is_draw : Z
}.

(** [str(cell)] *)
Definition py_str (c : Cell) : string :=
  match c with
  | NaN => "nan"
  | Str s => s
  end.

(** [s == cell] for a string [s]. *)
Definition str_eq (s : string) (c : Cell) : bool :=
  match c with
  | NaN => false
  | Str t => String.eqb s t
  end.

(** [cell in subjects] for a list of strings. *)
Definition cell_in (c : Cell) (subjects : list string) : bool :=
  existsb (fun s => str_eq s c) subjects.

(** The difficulty buckets of [generate_row]. *)
Definition difficulty_bucket (diff : Z) : string :=
  if diff >=? 100 then "Much Stronger (+100+)"
  else if diff >=? 25 then "Stronger (+25 to +99)"
  else if diff >? -25 then "Similar (±25)"
  else if diff >? -100 then "Weaker (-25 to -99)"
  else "Much Weaker (-100+)".

(** [generate_row] *)
Definition generate_row (row : CsvRow) (perspective : string) : Row :=
  let is_white := String.eqb perspective "white" in
  let player :=
    if is_white then csv_white_username row else csv_black_username row in
  let opponent :=
    if is_white then csv_black_username row else csv_white_username row in
  let player_elo :=
    if is_white then csv_white_rating row else csv_black_rating row in
  let opponent_elo :=
    if is_white then csv_black_rating row else csv_white_rating row in
  let winner := py_str (csv_winner row) in
  let status :=
    if String.eqb winner "draw" then "Draw"
    else if str_eq winner player then "Win"
    else "Loss" in
  let diff := player_elo - opponent_elo in
  {| game_date := csv_end_date row;
     game_time := csv_end_time row;
     end_datetime := csv_end_datetime row;
     player_name := player;
     opponent_name := opponent;
     player_rating := player_elo;
     opponent_rating := opponent_elo;
     rating_diff := diff;
     difficulty_category := difficulty_bucket diff;
     result_status := status;
     game_type := csv_game_type row;
     opening_name := csv_opening_name row;
     move_count := csv_move_count row;
     player_color := perspective;
     game_url := csv_url row |}.

(** The body of the loop over [df.iterrows()]. *)
Definition append_perspectives (subjects : list string)
    (perspective_rows : list Row) (row : CsvRow) : list Row :=
  let perspective_rows :=
    if cell_in (csv_white_username row) subjects
    then (perspective_rows ++ [generate_row row "white"])%list
    else perspective_rows in
  let perspective_rows :=
    if cell_in (csv_black_username row) subjects
    then (perspective_rows ++ [generate_row row "black"])%list
    else perspective_rows in
  perspective_rows.

(** [perspective_rows] after the loop. *)
Definition project (df : list CsvRow) (subjects : list string) : list Row :=
  fold_left (append_perspectives subjects) df [].

(** [(column == label).astype(int)] *)
Definition flag (status label : string) : Z :=
  if String.eqb status label then 1 else 0.

Definition with_flags (r : Row) : BiRow :=
  {| fields := r;
     is_win := flag (result_status r) "Win";
     is_loss := flag (result_status r) "Loss";
     is_draw := flag (result_status r) "Draw" |}.

Section Projector.

Context {table : TableLib}.

(** [create_perspective_data], on the table read from [input_path]
    ([None] = the file does not exist).  The result is the table
    written to [output_path]; [None] stands for the return value
    [False]. *)
Definition create_perspective_data (input : option (list CsvRow))
    (subjects : option (list string)) : option (list BiRow) :=
  match input with
  | None => None
  | Some df =>
      let subjects :=
        match subjects with
        | Some given => given
        | None =>
            value_counts_head 5
              (map csv_white_username df ++ map csv_black_username df)%list
        end in
      match project df subjects with
      | [] => None
      | perspective_rows =>
          let perspective_df := map with_flags perspective_rows in
          Some (sort_values (fun r => game_time (fields r)) perspective_df)
      end
  end.

End Projector.

End Perspective.

(* ================================================================== *)
(** ** Instances of the library interfaces *)
(* ================================================================== *)

(** Concrete libraries on which the pipeline can be run: a notation reader
    driven by a script, a clock in UTC, and two sorts that both meet the
    contract of [TableLib]. *)

Module Fixtures.

(** *** A scripted notation reader *)

(** What the reader knows about one notation text: its headers, whether
    the starting position can be built, and for each move of the main
    line whether it can be played. *)
Record ScriptedGame : Type := {
  sg_headers : list (string * string);
  sg_board : PyResult unit;
  sg_moves : list bool
}.

Fixpoint lookup {A : Type} (key : string) (entries : list (string * A))
  : option A :=
  match entries with
  | [] => None
  | (k, v) :: rest => if String.eqb key k then Some v else lookup key rest
  end.

Definition scripted_read (script : list (string * ScriptedGame))
    (text : string) : PyResult (option ScriptedGame) :=
  if PyStr.truthy text then Ok (lookup text script) else Ok None.

Definition scripted_push (board : unit) (playable : bool) : PyResult unit :=
  if playable then Ok tt else Raise AssertionError.

Lemma scripted_read_eof (script : list (string * ScriptedGame)) :
  scripted_read script "" = Ok None.
Proof. reflexivity. Qed.

Definition scripted_chess (script : list (string * ScriptedGame))
  : ChessLib :=
  {| Game := ScriptedGame;
     Board := unit;
     Move := bool;
     read_game := scripted_read script;
     headers_get := fun game tag => lookup tag (sg_headers game);
     game_board := sg_board;
     mainline_moves := sg_moves;
     board_push := scripted_push;
     read_game_eof := scripted_read_eof script |}.

(** *** A clock in UTC *)

Record CivilTime : Type := {
  ct_year : Z;
  ct_month : Z;
  ct_day : Z;
  ct_hour : Z;
  ct_minute : Z;
  ct_second : Z
}.

(** Proleptic Gregorian date of a day number counted from 1970-01-01. *)
Definition civil_from_days (days : Z) : Z * Z * Z :=
  let z := days + 719468 in
  let era := z / 146097 in
  let doe := z - era * 146097 in
  let yoe := (doe - doe / 1460 + doe / 36524 - doe / 146096) / 365 in
  let doy := doe - (365 * yoe + yoe / 4 - yoe / 100) in
  let mp := (5 * doy + 2) / 153 in
  let d := doy - (153 * mp + 2) / 5 + 1 in
  let m := if mp <? 10 then mp + 3 else mp - 9 in
  let y := yoe + era * 400 + (if m <=? 2 then 1 else 0) in
  (y, m, d).

Definition utc_fromtimestamp (t : Z) : PyResult CivilTime :=
  let '(y, m, d) := civil_from_days (t / 86400) in
  let s := t mod 86400 in
  if ((1 <=? y) && (y <=? 9999))%bool then
    Ok {| ct_year := y; ct_month := m; ct_day := d;
          ct_hour := s / 3600;
          ct_minute := (s mod 3600) / 60;
          ct_second := s mod 60 |}
  else Raise ValueError.

Definition digit_char (d : Z) : ascii :=
  ascii_of_nat (48 + Z.to_nat d).

(** The [width] low decimal digits of [n], zero padded. *)
Fixpoint zero_padded (width : nat) (n : Z) : string :=
  match width with
  | O => EmptyString
  | S w => zero_padded w (n / 10) ++ String (digit_char (n mod 10)) EmptyString
  end.

(** [strftime] for the directives Y, m, d, H, M and S. *)
Fixpoint utc_strftime (dt : CivilTime) (format : string) : string :=
  match format with
  | EmptyString => EmptyString
  | String "%" (String d rest) =>
      (if Ascii.eqb d "Y" then zero_padded 4 (ct_year dt)
       else if Ascii.eqb d "m" then zero_padded 2 (ct_month dt)
       else if Ascii.eqb d "d" then zero_padded 2 (ct_day dt)
       else if Ascii.eqb d "H" then zero_padded 2 (ct_hour dt)
       else if Ascii.eqb d "M" then zero_padded 2 (ct_minute dt)
       else if Ascii.eqb d "S" then zero_padded 2 (ct_second dt)
       else String "%" (String d EmptyString))
      ++ utc_strftime dt rest
  | String c rest => String c (utc_strftime dt rest)
  end.

Definition utc_clock : DatetimeLib :=
  {| datetime := CivilTime;
     fromtimestamp := utc_fromtimestamp;
     strftime := utc_strftime;
     dt_year := ct_year |}.

End Fixtures.

Example utc_time_fields :
  @time_fields Fixtures.utc_clock 1700000000
  = ("2023-11-14", "2023-11-14 22:13:20", 2023, "2023-11").
Proof. vm_compute. reflexivity. Qed.

(** *** Two sorts that meet the contract of the table library *)

Module Sorts.

Section Insertion.

Variable A : Type.
Variable key : A -> Z.

(** [goes_first x y] decides whether a row [x] is placed before a row
    [y] it meets during insertion. *)
Variable goes_first : Z -> Z -> bool.
Hypothesis goes_first_le :
  forall a b, goes_first a b = true -> a <= b.
Hypothesis goes_after_le :
  forall a b, goes_first a b = false -> b <= a.

Fixpoint insert (x : A) (l : list A) : list A :=
  match l with
  | [] => [x]
  | y :: rest =>
      if goes_first (key x) (key y) then x :: l
      else y :: insert x rest
  end.

Definition insertion_sort (l : list A) : list A :=
  fold_right insert [] l.

Lemma insert_perm (x : A) (l : list A) :
  Permutation (x :: l) (insert x l).
Proof.
  induction l as [|y rest IH]; simpl.
  - apply Permutation_refl.
  - destruct (goes_first (key x) (key y)).
    + apply Permutation_refl.
    + apply perm_trans with (y :: x :: rest).
      * apply perm_swap.
      * apply perm_skip, IH.
Qed.

Lemma insertion_sort_perm (l : list A) :
  Permutation l (insertion_sort l).
Proof.
  induction l as [|x rest IH]; simpl.
  - apply perm_nil.
  - apply perm_trans with (x :: insertion_sort rest).
    + apply perm_skip, IH.
    + apply insert_perm.
Qed.

Lemma insert_ordered (x : A) (l : list A) :
  StronglySorted (fun a b => key a <= key b) l ->
  StronglySorted (fun a b => key a <= key b) (insert x l).
Proof.
  induction l as [|y rest IH]; simpl; intros Hs.
  - constructor; [constructor | constructor].
  - inversion Hs as [|y' rest' Hrest Hall]; subst.
    destruct (goes_first (key x) (key y)) eqn:Hc.
    + constructor; [exact Hs|].
      apply goes_first_le in Hc.
      constructor; [exact Hc|].
      eapply Forall_impl; [|exact Hall].
      intros a Ha; simpl in *; lia.
    + constructor; [apply IH; exact Hrest|].
      apply goes_after_le in Hc.
      apply (Permutation_Forall (insert_perm x rest)).
      constructor; [exact Hc | exact Hall].
Qed.

Lemma insertion_sort_ordered (l : list A) :
  StronglySorted (fun a b => key a <= key b) (insertion_sort l).
Proof.
  induction l as [|x rest IH]; simpl.
  - constructor.
  - apply insert_ordered, IH.
Qed.

End Insertion.

Lemma leb_first (a b : Z) : (a <=? b) = true -> a <= b.
Proof. intros H; apply Z.leb_le; exact H. Qed.

Lemma leb_after (a b : Z) : (a <=? b) = false -> b <= a.
Proof. intros H; apply Z.leb_gt in H; lia. Qed.

(** Insertion that places a row before the rows of equal key it meets:
    rows of equal key keep their order. *)
Definition stable_sort {A : Type} (key : A -> Z) (l : list A) : list A :=
  insertion_sort A key Z.leb l.

Section Network.

Variable A : Type.
Variable key : A -> Z.

(** The sort a short integer column gets on a processor with vector
    instructions: the rows are loaded into four lanes, unused lanes are
    padded with the largest key, and a fixed network of compare-exchange
    steps orders the lanes.  A lane is a row or padding ([None]). *)
Definition above (x y : option A) : bool :=
  match x, y with
  | Some a, Some b => key b <? key a
  | None, Some _ => true
  | _, None => false
  end.

(** One step on a pair of lanes: the lower lane receives the smaller key
    and the upper lane the larger; two rows of equal key stay where they
    are. *)
Definition compare_exchange (x y : option A) : option A * option A :=
  if above x y then (y, x) else (x, y).

(** The network: neighbours, then the outer and the inner pair, then
    neighbours again. *)
Definition network (a b c d : option A) : list (option A) :=
  let '(a, b) := compare_exchange a b in
  let '(c, d) := compare_exchange c d in
  let '(a, d) := compare_exchange a d in
  let '(b, c) := compare_exchange b c in
  let '(a, b) := compare_exchange a b in
  let '(c, d) := compare_exchange c d in
  [a; b; c; d].

Definition rows_of (lanes : list (option A)) : list A :=
  flat_map (fun lane => match lane with Some a => [a] | None => [] end) lanes.

(** Columns of up to four rows go through the network.  Longer columns,
    whose treatment depends on the width of the processor's registers,
    are sorted by insertion here. *)
Definition vectorised_sort (l : list A) : list A :=
  match l with
  | [] => []
  | [a] => rows_of (network (Some a) None None None)
  | [a; b] => rows_of (network (Some a) (Some b) None None)
  | [a; b; c] => rows_of (network (Some a) (Some b) (Some c) None)
  | [a; b; c; d] => rows_of (network (Some a) (Some b) (Some c) (Some d))
  | _ => insertion_sort A key Z.leb l
  end.

Ltac split_tests :=
  unfold network, compare_exchange, above;
  repeat (match goal with
          | |- context [Z.ltb ?x ?y] => destruct (Z.ltb_spec x y)
          end; cbn [rows_of flat_map app]);
  cbn [rows_of flat_map app].

Ltac perm_list :=
  match goal with
  | |- Permutation [] [] => apply perm_nil
  | |- Permutation (?x :: ?l) ?l' =>
      match l' with
      | x :: ?t => apply perm_skip; perm_list
      | ?y :: x :: ?t => apply (Permutation_cons_app [y] t x); simpl; perm_list
      | ?y :: ?z :: x :: ?t =>
          apply (Permutation_cons_app [y; z] t x); simpl; perm_list
      | ?y :: ?z :: ?w :: x :: ?t =>
          apply (Permutation_cons_app [y; z; w] t x); simpl; perm_list
      end
  end.

Lemma vectorised_sort_perm (l : list A) :
  Permutation l (vectorised_sort l).
Proof.
  destruct l as [|a [|b [|c [|d [|e rest]]]]]; unfold vectorised_sort.
  - apply perm_nil.
  - split_tests; perm_list.
  - split_tests; perm_list.
  - split_tests; perm_list.
  - split_tests; perm_list.
  - apply insertion_sort_perm.
Qed.

Lemma vectorised_sort_ordered (l : list A) :
  StronglySorted (fun a b => key a <= key b) (vectorised_sort l).
Proof.
  destruct l as [|a [|b [|c [|d [|e rest]]]]]; unfold vectorised_sort.
  - constructor.
  - split_tests; repeat constructor.
  - split_tests; repeat constructor; lia.
  - split_tests; repeat constructor; lia.
  - split_tests; repeat constructor; lia.
  - apply insertion_sort_ordered; [apply leb_first | apply leb_after].
Qed.

End Network.

(** Number of cells of [cells] that hold the string [s]. *)
Definition occurrences (s : string) (cells : list Cell) : Z :=
  Z.of_nat
    (List.length
       (filter (fun c => match c with
                         | Str t => String.eqb s t
                         | NaN => false
                         end) cells)).

Definition strings_of (cells : list Cell) : list string :=
  flat_map (fun c => match c with Str s => [s] | NaN => [] end) cells.

(** The [n] most frequent strings of a column, most frequent first. *)
Definition most_frequent (n : nat) (cells : list Cell) : list string :=
  firstn n
    (stable_sort (fun s => - occurrences s cells)
                 (drop_duplicates (fun s => s) (strings_of cells))).

Definition stable_table : TableLib :=
  {| sort_values := fun A key l => stable_sort key l;
     value_counts_head := most_frequent;
     sort_values_ordered := fun A key l =>
       insertion_sort_ordered A key Z.leb leb_first leb_after l;
     sort_values_perm := fun A key l =>
       insertion_sort_perm A key Z.leb l |}.

Definition vectorised_table : TableLib :=
  {| sort_values := fun A key l => vectorised_sort A key l;
     value_counts_head := most_frequent;
     sort_values_ordered := fun A key l => vectorised_sort_ordered A key l;
     sort_values_perm := fun A key l => vectorised_sort_perm A key l |}.

End Sorts.

(* ================================================================== *)
(** ** Properties of the record normaliser *)
(* ================================================================== *)

(** The username the normaliser reads for one side of a raw game. *)
Definition raw_username (side : option RawPlayer) : string :=
  PyStr.get (p_username (PyStr.get side empty_player)) "".

(** Some required key is absent from the raw game. *)
Definition missing_required (game : RawGame) : Prop :=
  g_white game = None \/ g_black game = None \/
  g_end_time game = None \/ g_pgn game = None.

Lemma validate_chess_data_true (game : RawGame) :
  validate_chess_data game = true <->
  (exists w b t n,
      g_white game = Some w /\ g_black game = Some b /\
      g_end_time game = Some t /\ g_pgn game = Some n).
Proof.
  unfold validate_chess_data, required_fields; simpl.
  unfold has_key; simpl.
  destruct (g_white game), (g_black game), (g_end_time game), (g_pgn game);
    simpl; split; intro Hv; try discriminate; try reflexivity;
    try (do 4 eexists; repeat split; reflexivity);
    destruct Hv as (w & b & t & n & H1 & H2 & H3 & H4); discriminate.
Qed.

Lemma validate_chess_data_false (game : RawGame) :
  validate_chess_data game = false <-> missing_required game.
Proof.
  unfold missing_required.
  split.
  - intros Hv.
    destruct (g_white game) as [w|] eqn:Hw; [|now left].
    destruct (g_black game) as [b|] eqn:Hb; [|now right; left].
    destruct (g_end_time game) as [t|] eqn:Ht; [|now right; right; left].
    destruct (g_pgn game) as [n|] eqn:Hn; [|now right; right; right].
    assert (Ht' : validate_chess_data game = true).
    { apply validate_chess_data_true. now exists w, b, t, n. }
    congruence.
  - intros Hm.
    destruct (validate_chess_data game) eqn:Hv; [|reflexivity].
    apply validate_chess_data_true in Hv.
    destruct Hv as (w & b & t & n & H1 & H2 & H3 & H4).
    destruct Hm as [Hm|[Hm|[Hm|Hm]]]; congruence.
Qed.

Section NormalizerFacts.

Context {chess : ChessLib} {clock : DatetimeLib}.

(** The notation information [extract_game_data] merges into the row. *)
Definition notation_info (game : RawGame) : NotationInfo :=
  let notation := PyStr.get (g_pgn game) "" in
  if PyStr.truthy notation then parse_pgn_game notation else zero_info.

(** The outcome ladder as [extract_game_data] calls it on a raw game. *)
Definition game_outcome (game : RawGame) : PyResult (string * string * string) :=
  resolve_outcome (raw_username (g_white game)) (raw_username (g_black game))
                  (outcome_token (g_white game)) (outcome_token (g_black game))
                  (Some (ni_result (notation_info game))).

(** A valid record whose ladder resolves is emitted, with the ladder's
    winner, result and category. *)
Lemma extract_game_data_resolved (game : RawGame) (win res cat : string) :
  validate_chess_data game = true ->
  game_outcome game = Ok (win, res, cat) ->
  exists row,
    extract_game_data game = Some row /\
    white_username row = raw_username (g_white game) /\
    black_username row = raw_username (g_black game) /\
    winner row = win /\ result row = res /\ result_category row = cat /\
    white_win row = String.eqb win (white_username row) /\
    black_win row = String.eqb win (black_username row) /\
    is_draw row = String.eqb win "draw".
Proof.
  intros Hv Hres.
  unfold extract_game_data. rewrite Hv. simpl.
  apply validate_chess_data_true in Hv.
  destruct Hv as (w & b & t & n & Hw & Hb & Ht & Hn).
  unfold game_outcome, notation_info, raw_username in Hres.
  unfold extract_body. rewrite Hw, Hb in *. simpl in *.
  destruct (time_fields _) as [[[d dt] y] m].
  rewrite Hres. simpl.
  eexists. split; [reflexivity|]. simpl. repeat split; reflexivity.
Qed.

(** A valid record whose ladder raises is rejected. *)
Lemma extract_game_data_raised (game : RawGame) (e : PyExn) :
  game_outcome game = Raise e ->
  extract_game_data game = None.
Proof.
  intros Hres.
  unfold extract_game_data.
  destruct (validate_chess_data game) eqn:Hv; [|reflexivity]. simpl.
  apply validate_chess_data_true in Hv.
  destruct Hv as (w & b & t & n & Hw & Hb & Ht & Hn).
  unfold game_outcome, notation_info, raw_username in Hres.
  unfold extract_body. rewrite Hw, Hb in *. simpl in *.
  destruct (time_fields _) as [[[d dt] y] m].
  rewrite Hres. reflexivity.
Qed.

(** Every emitted row comes from a valid record whose ladder resolved. *)
Lemma extract_game_data_some (game : RawGame) (row : CanonicalRow) :
  extract_game_data game = Some row ->
  validate_chess_data game = true /\
  game_outcome game = Ok (winner row, result row, result_category row) /\
  white_username row = raw_username (g_white game) /\
  black_username row = raw_username (g_black game) /\
  white_win row = String.eqb (winner row) (white_username row) /\
  black_win row = String.eqb (winner row) (black_username row) /\
  is_draw row = String.eqb (winner row) "draw".
Proof.
  intros Hrow.
  destruct (validate_chess_data game) eqn:Hv.
  2:{ unfold extract_game_data in Hrow. rewrite Hv in Hrow. discriminate. }
  split; [reflexivity|].
  destruct (game_outcome game) as [[[win res] cat]|e] eqn:Hres.
  - destruct (extract_game_data_resolved game win res cat Hv Hres)
      as (row' & Hrow' & Hwn & Hbn & Hwin & Hr & Hc & Hww & Hbw & Hd).
    rewrite Hrow in Hrow'. injection Hrow' as <-.
    subst win res cat. repeat split; assumption.
  - rewrite (extract_game_data_raised game e Hres) in Hrow. discriminate.
Qed.

End NormalizerFacts.

(** *** Sample raw games *)

Module Samples.

Definition player (name : string) (elo : Z) (token : string) : RawPlayer :=
  {| p_username := Some name; p_rating := Some elo; p_result := Some token |}.

Definition game_of (white black : RawPlayer) (notation : string) : RawGame :=
  {| g_white := Some white;
     g_black := Some black;
     g_end_time := Some 1700000000;
     g_time_control := Some "600";
     g_url := Some "https://www.chess.com/game/live/1";
     g_pgn := Some notation;
     g_result := None |}.

(** Both sides marked as winners. *)
Definition both_win : RawGame :=
  game_of (player "alice" 1500 "win") (player "bob" 1400 "Win") "".

(** Neither a win nor a draw token, and no notation text. *)
Definition abandoned : RawGame :=
  game_of (player "alice" 1500 "abandoned") (player "bob" 1400 "abandoned") "".

(** The same player on both sides. *)
Definition self_play : RawGame :=
  game_of (player "alice" 1500 "win") (player "alice" 1500 "checkmated") "".

(** A player whose username is the word the ladder uses for a draw. *)
Definition named_draw : RawGame :=
  game_of (player "draw" 1500 "win") (player "bob" 1400 "resigned") "".

(** A game without the key [end_time]. *)
Definition no_end_time : RawGame :=
  {| g_white := Some (player "alice" 1500 "win");
     g_black := Some (player "bob" 1400 "resigned");
     g_end_time := None;
     g_time_control := Some "600";
     g_url := Some "https://www.chess.com/game/live/2";
     g_pgn := Some "";
     g_result := None |}.

(** No notation is known to the reader. *)
Definition chess : ChessLib := Fixtures.scripted_chess [].

Definition clock : DatetimeLib := Fixtures.utc_clock.

End Samples.

Section NormalizerClaims.

Context {chess : ChessLib} {clock : DatetimeLib}.

(** C1: the outcome ladder is evaluated in a fixed priority order on the
    two lower-cased outcome tokens of a valid record.  When white's token
    is [win] the winner is the white username, the result is [1-0] and
    the category is black's token; otherwise, when black's token is
    [win], the winner is the black username, the result is [0-1] and the
    category is white's token; otherwise, when either token is a draw
    token, the winner is [draw], the result is [1/2-1/2] and the category
    is white's token.  In particular, when both tokens are [win], white
    is the winner. *)
Theorem outcome_ladder_priority (game : RawGame) :
  validate_chess_data game = true ->
  let white_result := outcome_token (g_white game) in
  let black_result := outcome_token (g_black game) in
  (white_result = "win" ->
     exists row,
       extract_game_data game = Some row /\
       white_username row = raw_username (g_white game) /\
       winner row = white_username row /\
       result row = "1-0" /\
       result_category row = black_result) /\
  (white_result <> "win" -> black_result = "win" ->
     exists row,
       extract_game_data game = Some row /\
       black_username row = raw_username (g_black game) /\
       winner row = black_username row /\
       result row = "0-1" /\
       result_category row = white_result) /\
  (white_result <> "win" -> black_result <> "win" ->
   is_draw_token white_result = true \/ is_draw_token black_result = true ->
     exists row,
       extract_game_data game = Some row /\
       winner row = "draw" /\
       result row = "1/2-1/2" /\
       result_category row = white_result) /\
  (white_result = "win" -> black_result = "win" ->
     exists row,
       extract_game_data game = Some row /\
       winner row = white_username row /\
       result row = "1-0" /\
       white_win row = true).
Proof.
  intros Hv white_result black_result.
  assert (Hwhite : white_result = "win" ->
            game_outcome game
            = Ok (raw_username (g_white game), "1-0", black_result)).
  { intros Hw. unfold game_outcome, resolve_outcome.
    fold white_result. rewrite Hw. reflexivity. }
  repeat split.
  - intros Hw.
    destruct (extract_game_data_resolved game _ _ _ Hv (Hwhite Hw))
      as (row & Hrow & Hwn & _ & Hwin & Hr & Hc & _).
    exists row. repeat split; congruence.
  - intros Hw Hb.
    assert (Hout : game_outcome game
                   = Ok (raw_username (g_black game), "0-1", white_result)).
    { unfold game_outcome, resolve_outcome.
      fold white_result black_result.
      apply String.eqb_neq in Hw. rewrite Hw, Hb. reflexivity. }
    destruct (extract_game_data_resolved game _ _ _ Hv Hout)
      as (row & Hrow & _ & Hbn & Hwin & Hr & Hc & _).
    exists row. repeat split; congruence.
  - intros Hw Hb Hd.
    assert (Hout : game_outcome game = Ok ("draw", "1/2-1/2", white_result)).
    { unfold game_outcome, resolve_outcome.
      fold white_result black_result.
      apply String.eqb_neq in Hw. apply String.eqb_neq in Hb.
      rewrite Hw, Hb. simpl.
      destruct Hd as [Hd|Hd]; rewrite Hd; simpl;
        [|rewrite orb_true_r]; reflexivity. }
    destruct (extract_game_data_resolved game _ _ _ Hv Hout)
      as (row & Hrow & _ & _ & Hwin & Hr & Hc & _).
    exists row. repeat split; congruence.
  - intros Hw _.
    destruct (extract_game_data_resolved game _ _ _ Hv (Hwhite Hw))
      as (row & Hrow & Hwn & _ & Hwin & Hr & Hc & Hww & _).
    exists row. repeat split; try congruence.
    rewrite Hww, Hwn. apply String.eqb_refl.
Qed.

(** In the last rule of the ladder the row is emitted exactly when the
    notation declared a result. *)
Lemma unresolved_outcome (game : RawGame) :
  validate_chess_data game = true ->
  let white_result := outcome_token (g_white game) in
  let black_result := outcome_token (g_black game) in
  white_result <> "win" -> black_result <> "win" ->
  is_draw_token white_result = false ->
  is_draw_token black_result = false ->
  match ni_result (notation_info game) with
  | None => extract_game_data game = None
  | Some declared =>
      exists row,
        extract_game_data game = Some row /\
        result row = declared /\
        winner row = (if PyStr.contains "1/2-1/2" declared then "draw" else "") /\
        result_category row = white_result ++ "/" ++ black_result
  end.
Proof.
  intros Hv white_result black_result Hw Hb Hdw Hdb.
  assert (Hout : game_outcome game =
                 match ni_result (notation_info game) with
                 | None => Raise TypeError
                 | Some declared =>
                     Ok (if PyStr.contains "1/2-1/2" declared
                         then "draw" else "",
                         declared, white_result ++ "/" ++ black_result)
                 end).
  { unfold game_outcome, resolve_outcome.
    fold white_result black_result.
    apply String.eqb_neq in Hw. apply String.eqb_neq in Hb.
    rewrite Hw, Hb. simpl. rewrite Hdw, Hdb. simpl.
    destruct (ni_result (notation_info game)); reflexivity. }
  destruct (ni_result (notation_info game)) as [declared|].
  - destruct (extract_game_data_resolved game _ _ _ Hv Hout)
      as (row & Hrow & _ & _ & Hwin & Hr & Hc & _).
    exists row. repeat split; assumption.
  - apply (extract_game_data_raised game TypeError Hout).
Qed.

(** C2: a valid record that reaches the last rule of the ladder with no
    declared result is not emitted.  The record [Samples.abandoned]
    passes the validation, neither of its tokens is [win] or a draw
    token, its notation text is empty, and [extract_game_data] returns
    nothing for it. *)
Theorem unresolved_without_declared_result_rejected :
  validate_chess_data Samples.abandoned = true /\
  outcome_token (g_white Samples.abandoned) = "abandoned" /\
  outcome_token (g_black Samples.abandoned) = "abandoned" /\
  is_draw_token "abandoned" = false /\
  ni_result (notation_info Samples.abandoned) = None /\
  extract_game_data Samples.abandoned = None.
Proof.
  repeat split; try reflexivity.
  apply (extract_game_data_raised Samples.abandoned TypeError).
  reflexivity.
Qed.

(** C4: validation fails exactly when one of the keys [white], [black],
    [end_time], [pgn] is absent, and a record with such a key absent
    yields no row. *)
Theorem missing_key_yields_no_row (game : RawGame) :
  (validate_chess_data game = false <-> missing_required game) /\
  (missing_required game -> extract_game_data game = None).
Proof.
  split.
  - apply validate_chess_data_false.
  - intros Hm. apply validate_chess_data_false in Hm.
    unfold extract_game_data. rewrite Hm. reflexivity.
Qed.

End NormalizerClaims.

(** Exactly one of three flags is set. *)
Definition exactly_one (a b c : bool) : Prop :=
  (a = true /\ b = false /\ c = false) \/
  (a = false /\ b = true /\ c = false) \/
  (a = false /\ b = false /\ c = true).

(** The three outcome flags of a row single out one outcome, or none of
    them is set and the winner is empty. *)
Definition flags_consistent (row : CanonicalRow) : Prop :=
  exactly_one (white_win row) (black_win row) (is_draw row) \/
  (white_win row = false /\ black_win row = false /\ is_draw row = false /\
   winner row = "").

Lemma resolve_outcome_winner
    (white_name black_name white_result black_result : string)
    (entry : option (option string)) (win res cat : string) :
  resolve_outcome white_name black_name white_result black_result entry
  = Ok (win, res, cat) ->
  win = white_name \/ win = black_name \/ win = "draw" \/ win = "".
Proof.
  unfold resolve_outcome.
  destruct (String.eqb white_result "win").
  { intros H; injection H as <- _ _. now left. }
  destruct (String.eqb black_result "win").
  { intros H; injection H as <- _ _. now right; left. }
  destruct (existsb is_draw_token [white_result; black_result]).
  { intros H; injection H as <- _ _. now right; right; left. }
  destruct (PyStr.get entry (Some "1/2-1/2")) as [declared|]; [|discriminate].
  intros H; injection H as <- _ _.
  destruct (PyStr.contains "1/2-1/2" declared);
    [now right; right; left | now right; right; right].
Qed.

Section FlagClaims.

Context {chess : ChessLib} {clock : DatetimeLib}.

(** C3, as amended: for every emitted row whose two usernames differ and
    are both different from the word [draw], exactly one of the flags
    [white_win], [black_win], [is_draw] is true, or all three are false
    and then the winner is the empty string. *)
Theorem flags_exclusive_for_distinct_names
    (game : RawGame) (row : CanonicalRow) :
  extract_game_data game = Some row ->
  white_username row <> black_username row ->
  white_username row <> "draw" ->
  black_username row <> "draw" ->
  flags_consistent row.
Proof.
  intros Hrow Hdiff Hwd Hbd.
  destruct (extract_game_data_some game row Hrow)
    as (_ & Hout & Hwn & Hbn & Hww & Hbw & Hd).
  unfold game_outcome in Hout. rewrite <- Hwn, <- Hbn in Hout.
  apply resolve_outcome_winner in Hout.
  unfold flags_consistent, exactly_one.
  rewrite Hww, Hbw, Hd.
  destruct Hout as [Hw|[Hw|[Hw|Hw]]]; rewrite Hw.
  - left. left. rewrite String.eqb_refl.
    split; [reflexivity|split]; apply String.eqb_neq; assumption.
  - left. right. left. rewrite String.eqb_refl.
    split; [|split; [reflexivity|]]; apply String.eqb_neq; auto.
  - left. right. right.
    split; [|split; [|reflexivity]]; apply String.eqb_neq; auto.
  - destruct (String.eqb "" (white_username row)) eqn:Ew.
    + left. left. apply String.eqb_eq in Ew.
      split; [reflexivity|split; [|reflexivity]].
      apply String.eqb_neq; congruence.
    + destruct (String.eqb "" (black_username row)) eqn:Eb.
      * left. right. left. repeat split.
      * right. repeat split.
Qed.

End FlagClaims.

(** C1, on the record whose two tokens are both [win]. *)
Lemma outcome_ladder_priority_witness :
  validate_chess_data Samples.both_win = true /\
  exists row,
    @extract_game_data Samples.chess Samples.clock Samples.both_win = Some row /\
    white_username row = "alice" /\
    winner row = white_username row /\
    result row = "1-0" /\
    result_category row = "win".
Proof.
  split; [reflexivity|].
  destruct (@outcome_ladder_priority Samples.chess Samples.clock
              Samples.both_win eq_refl) as (Hwhite & _).
  exact (Hwhite eq_refl).
Defined.

(** C4, on a record without the key [end_time]. *)
Lemma missing_key_yields_no_row_witness :
  missing_required Samples.no_end_time /\
  @extract_game_data Samples.chess Samples.clock Samples.no_end_time = None.
Proof.
  assert (Hm : missing_required Samples.no_end_time).
  { right; right; left; reflexivity. }
  split; [exact Hm|].
  exact (proj2 (@missing_key_yields_no_row Samples.chess Samples.clock
                  Samples.no_end_time) Hm).
Defined.

(** C3 as stated fails: with the same player on both sides and a white
    win, [white_win] and [black_win] are both true; with a white player
    named [draw] who wins, [white_win] and [is_draw] are both true. *)
Lemma flags_not_exclusive :
  (exists row,
      @extract_game_data Samples.chess Samples.clock Samples.self_play
      = Some row /\
      white_win row = true /\ black_win row = true /\
      ~ flags_consistent row) /\
  (exists row,
      @extract_game_data Samples.chess Samples.clock Samples.named_draw
      = Some row /\
      white_win row = true /\ is_draw row = true /\
      ~ flags_consistent row).
Proof.
  split; eexists; (split; [vm_compute; reflexivity|]); simpl;
    (repeat split; try reflexivity);
    unfold flags_consistent, exactly_one; simpl;
    intros [[H|[H|H]]|H]; destruct H as (H1 & H2 & H3); discriminate.
Qed.

(** C3 as amended, on the record whose two tokens are both [win]. *)
Lemma flags_exclusive_for_distinct_names_witness :
  exists row,
    @extract_game_data Samples.chess Samples.clock Samples.both_win = Some row /\
    white_username row <> black_username row /\
    white_username row <> "draw" /\
    black_username row <> "draw" /\
    flags_consistent row.
Proof.
  eexists.
  split; [vm_compute; reflexivity|].
  assert (Hdiff : "alice" <> "bob") by discriminate.
  assert (Hwd : "alice" <> "draw") by discriminate.
  assert (Hbd : "bob" <> "draw") by discriminate.
  repeat split; try assumption.
  eapply (@flags_exclusive_for_distinct_names Samples.chess Samples.clock
            Samples.both_win); [vm_compute; reflexivity | | | ]; assumption.
Defined.

(* ================================================================== *)
(** ** Properties of the notation parser *)
(* ================================================================== *)

Module ParserSamples.

(** A game of a variant the notation library has no board for: the
    headers are read, the starting position cannot be built. *)
Definition quote : string := String (ascii_of_nat 34) EmptyString.

Definition newline : string := String (ascii_of_nat 10) EmptyString.

(** One header line of a notation text. *)
Definition tag (name value : string) : string :=
  "[" ++ name ++ " " ++ quote ++ value ++ quote ++ "]" ++ newline.

Definition bughouse_text : string :=
  tag "Result" "0-1" ++ tag "ECO" "C20" ++ tag "Variant" "Bughouse"
  ++ newline ++ "1. e4 e5 0-1".

Definition bughouse_game : Fixtures.ScriptedGame :=
  {| Fixtures.sg_headers :=
       [("Result", "0-1"); ("ECO", "C20"); ("Variant", "Bughouse")];
     Fixtures.sg_board := Raise ValueError;
     Fixtures.sg_moves := [true; true] |}.

Definition chess : ChessLib :=
  Fixtures.scripted_chess [(bughouse_text, bughouse_game)].

End ParserSamples.

Section ParserClaims.

Context {chess : ChessLib}.

Lemma parse_body_move_count (pgn_string : string) :
  parse_failed pgn_string = true ->
  ni_move_count (parse_pgn_game pgn_string) = 0.
Proof.
  unfold parse_failed, parse_pgn_game, parse_body.
  destruct (read_game pgn_string) as [[game|]|e]; simpl;
    try discriminate; try reflexivity.
  destruct (game_board game) as [board|e]; simpl; [|reflexivity].
  destruct (replay board (mainline_moves game) 0); simpl;
    [discriminate | reflexivity].
Qed.

(** C9, as amended: when the notation text is empty, when the reader
    finds no game in it, or when the reader itself fails, the parser
    returns the zero-value result.  When a failure occurs after the
    headers were read, the move count is 0 and the code and the result
    are the ones of the headers.  The parser returns a dictionary in
    every case: no failure reaches the caller. *)
Theorem parse_pgn_game_recovery (pgn_string : string) :
  (pgn_string = "" -> parse_pgn_game pgn_string = zero_info) /\
  (read_game pgn_string = Ok None -> parse_pgn_game pgn_string = zero_info) /\
  (forall e, read_game pgn_string = Raise e ->
             parse_pgn_game pgn_string = zero_info) /\
  (parse_failed pgn_string = true ->
     ni_move_count (parse_pgn_game pgn_string) = 0) /\
  (forall game, read_game pgn_string = Ok (Some game) ->
     parse_failed pgn_string = true ->
     ni_eco_code (parse_pgn_game pgn_string) = headers_get game "ECO" /\
     ni_result (parse_pgn_game pgn_string) = headers_get game "Result").
Proof.
  split; [|split; [|split; [|split]]].
  - intros ->. unfold parse_pgn_game, parse_body.
    rewrite read_game_eof. reflexivity.
  - intros Hr. unfold parse_pgn_game, parse_body. rewrite Hr. reflexivity.
  - intros e Hr. unfold parse_pgn_game, parse_body. rewrite Hr. reflexivity.
  - apply parse_body_move_count.
  - intros game Hr. unfold parse_failed, parse_pgn_game, parse_body.
    rewrite Hr.
    destruct (game_board game) as [board|e]; simpl; [|split; reflexivity].
    destruct (replay board (mainline_moves game) 0); simpl;
      [discriminate | split; reflexivity].
Qed.

End ParserClaims.

(** C9 as stated fails: on a game whose starting position cannot be built
    the parse fails, and the result keeps the code and the result read
    from the headers. *)
Lemma parse_failure_keeps_headers :
  @parse_failed ParserSamples.chess ParserSamples.bughouse_text = true /\
  @parse_pgn_game ParserSamples.chess ParserSamples.bughouse_text
  = {| ni_move_count := 0;
       ni_eco_code := Some "C20";
       ni_opening_name := None;
       ni_result := Some "0-1" |} /\
  @parse_pgn_game ParserSamples.chess ParserSamples.bughouse_text <> zero_info.
Proof.
  split; [vm_compute; reflexivity|].
  split; [vm_compute; reflexivity|].
  vm_compute. discriminate.
Qed.

(** C9 as amended, on the empty text and on the game whose starting
    position cannot be built. *)
Lemma parse_pgn_game_recovery_witness :
  @parse_pgn_game ParserSamples.chess "" = zero_info /\
  ni_move_count
    (@parse_pgn_game ParserSamples.chess ParserSamples.bughouse_text) = 0.
Proof.
  split.
  - exact (proj1 (@parse_pgn_game_recovery ParserSamples.chess "") eq_refl).
  - apply (@parse_pgn_game_recovery ParserSamples.chess
             ParserSamples.bughouse_text).
    vm_compute. reflexivity.
Defined.


(* ================================================================== *)
(** ** Properties of the dataset builder *)
(* ================================================================== *)

Section Deduplication.

Variable A : Type.
Variable key : A -> string.

(** [row] sits at position [i] of [rows] and no earlier row has its key. *)
Definition first_occurrence (rows : list A) (i : nat) (row : A) : Prop :=
  nth_error rows i = Some row /\
  forall j r, (j < i)%nat -> nth_error rows j = Some r -> key r <> key row.

Lemma seen_spec (k : string) (seen : list string) :
  existsb (String.eqb k) seen = true <-> In k seen.
Proof.
  rewrite existsb_exists. split.
  - intros (x & Hin & Heq). apply String.eqb_eq in Heq. now subst.
  - intros Hin. exists k. split; [assumption | apply String.eqb_refl].
Qed.

Lemma drop_duplicates_from_In (rows : list A) :
  forall (seen : list string) (row : A),
    In row (drop_duplicates_from key seen rows) <->
    (exists i, first_occurrence rows i row) /\ ~ In (key row) seen.
Proof.
  induction rows as [|x rest IH]; intros seen row; simpl.
  - split; [tauto|]. intros [(i & Hi & _) _]. destruct i; discriminate.
  - destruct (existsb (String.eqb (key x)) seen) eqn:Hseen.
    + apply seen_spec in Hseen. rewrite IH. split.
      * intros [(i & Hi & Hfirst) Hnot]. split; [|assumption].
        exists (S i). split; [assumption|].
        intros [|j] r Hlt Hr; simpl in Hr.
        -- injection Hr as <-. intros Heq. apply Hnot. now rewrite <- Heq.
        -- apply (Hfirst j r); [lia | assumption].
      * intros [(i & Hi & Hfirst) Hnot]. split; [|assumption].
        destruct i as [|i]; simpl in Hi.
        -- injection Hi as <-. contradiction.
        -- exists i. split; [assumption|].
           intros j r Hlt Hr. apply (Hfirst (S j) r); [lia | assumption].
    + assert (Hfresh : ~ In (key x) seen).
      { intros Hin. apply seen_spec in Hin. congruence. }
      simpl. rewrite IH. split.
      * intros [<- | [(i & Hi & Hfirst) Hnot]].
        -- split; [|assumption]. exists O. split; [reflexivity|].
           intros j r Hlt. lia.
        -- split.
           ++ exists (S i). split; [assumption|].
              intros [|j] r Hlt Hr; simpl in Hr.
              ** injection Hr as <-. intros Heq. apply Hnot. left. assumption.
              ** apply (Hfirst j r); [lia | assumption].
           ++ intros Hin. apply Hnot. right. assumption.
      * intros [(i & Hi & Hfirst) Hnot].
        destruct i as [|i]; simpl in Hi.
        -- left. now injection Hi.
        -- right. split.
           ++ exists i. split; [assumption|].
              intros j r Hlt Hr. apply (Hfirst (S j) r); [lia | assumption].
           ++ intros [Heq | Hin]; [|contradiction].
              apply (Hfirst O x); [lia | reflexivity | assumption].
Qed.

Lemma drop_duplicates_from_NoDup (rows : list A) :
  forall seen : list string,
    NoDup (map key (drop_duplicates_from key seen rows)).
Proof.
  induction rows as [|x rest IH]; intros seen; simpl.
  - constructor.
  - destruct (existsb (String.eqb (key x)) seen); [apply IH|].
    simpl. constructor; [|apply IH].
    intros Hin. apply in_map_iff in Hin. destruct Hin as (r & Heq & Hr).
    apply drop_duplicates_from_In in Hr. destruct Hr as [_ Hnot].
    apply Hnot. left. symmetry. assumption.
Qed.

Lemma drop_duplicates_In (rows : list A) (row : A) :
  In row (drop_duplicates key rows) <-> exists i, first_occurrence rows i row.
Proof.
  unfold drop_duplicates. rewrite drop_duplicates_from_In. simpl. tauto.
Qed.

End Deduplication.

Arguments first_occurrence {A} key rows i row.

Module BuilderSamples.

(** Two games that ended at the same second. *)
Definition first_game : RawGame :=
  {| g_white := Some (Samples.player "alice" 1500 "win");
     g_black := Some (Samples.player "bob" 1400 "resigned");
     g_end_time := Some 1700000000;
     g_time_control := Some "600";
     g_url := Some "https://www.chess.com/game/live/1";
     g_pgn := Some "";
     g_result := None |}.

Definition second_game : RawGame :=
  {| g_white := Some (Samples.player "carol" 1600 "timeout");
     g_black := Some (Samples.player "dave" 1650 "win");
     g_end_time := Some 1700000000;
     g_time_control := Some "180+2";
     g_url := Some "https://www.chess.com/game/live/2";
     g_pgn := Some "";
     g_result := None |}.

(** One archive that holds the two games, the first one twice. *)
Definition archives : list (option ArchiveFile) :=
  [Some {| games := Some [first_game; second_game; first_game] |}].

End BuilderSamples.

Section BuilderClaims.

Context {chess : ChessLib} {clock : DatetimeLib} {table : TableLib}.

(** The rows [extract_game_data] emits for the games of one file. *)
Definition rows_of_games (batch : list RawGame) : list CanonicalRow :=
  flat_map (fun game => match extract_game_data game with
                        | Some row => [row]
                        | None => []
                        end) batch.

(** The normalised rows of all files, in the concatenated input order. *)
Definition normalized_rows (json_files : list (option ArchiveFile))
  : list CanonicalRow :=
  flat_map (fun data => match data with
                        | None => []
                        | Some d => rows_of_games (PyStr.get (games d) [])
                        end) json_files.

Lemma fold_append_extracted (batch : list RawGame) :
  forall processed : list CanonicalRow,
    fold_left append_extracted batch processed
    = (processed ++ rows_of_games batch)%list.
Proof.
  induction batch as [|game rest IH]; intros processed; simpl.
  - now rewrite app_nil_r.
  - rewrite IH. unfold append_extracted.
    destruct (extract_game_data game); simpl;
      [now rewrite <- app_assoc | reflexivity].
Qed.

Lemma process_json_file_rows (data : option ArchiveFile) :
  process_json_file data
  = match data with
    | None => []
    | Some d => rows_of_games (PyStr.get (games d) [])
    end.
Proof.
  destruct data as [d|]; [|reflexivity].
  unfold process_json_file. now rewrite fold_append_extracted.
Qed.

Lemma collect_games_rows (json_files : list (option ArchiveFile)) :
  collect_games json_files = normalized_rows json_files.
Proof.
  unfold collect_games, normalized_rows.
  assert (Hgen : forall all_games,
             fold_left (fun all_games data =>
                          (all_games ++ process_json_file data)%list)
                       json_files all_games
             = (all_games ++ flat_map process_json_file json_files)%list).
  { induction json_files as [|data rest IH]; intros all_games; simpl.
    - now rewrite app_nil_r.
    - rewrite IH. now rewrite <- app_assoc. }
  rewrite Hgen. simpl. clear Hgen.
  induction json_files as [|data rest IH]; simpl; [reflexivity|].
  rewrite process_json_file_rows, IH. reflexivity.
Qed.

(** The table [process_all_files] returns holds the deduplicated rows. *)
Lemma process_all_files_perm (json_files : list (option ArchiveFile)) :
  Permutation (drop_duplicates url (collect_games json_files))
              (process_all_files json_files).
Proof.
  unfold process_all_files.
  destruct json_files as [|data rest]; [apply perm_nil|].
  destruct (collect_games (data :: rest)) as [|row rows];
    [apply perm_nil | apply sort_values_perm].
Qed.

(** C5: the builder deduplicates the normalised rows by url.  The rows it
    collects are the normalised rows of all batches in the concatenated
    input order; the table it returns holds exactly the rows that are the
    first occurrence of their url in that order, and no url twice. *)
Theorem dedup_keeps_first_occurrence (json_files : list (option ArchiveFile)) :
  let all_games := normalized_rows json_files in
  let dataset := process_all_files json_files in
  collect_games json_files = all_games /\
  Permutation (drop_duplicates url all_games) dataset /\
  NoDup (map url dataset) /\
  (forall row,
      In row dataset <-> exists i, first_occurrence url all_games i row).
Proof.
  intros all_games dataset.
  assert (Hperm : Permutation (drop_duplicates url all_games) dataset).
  { unfold all_games. rewrite <- collect_games_rows.
    apply process_all_files_perm. }
  split; [apply collect_games_rows|].
  split; [exact Hperm|].
  split.
  - apply (Permutation_NoDup (Permutation_map url Hperm)).
    apply drop_duplicates_from_NoDup.
  - intros row. rewrite <- drop_duplicates_In. split.
    + apply Permutation_in. apply Permutation_sym. exact Hperm.
    + apply Permutation_in. exact Hperm.
Qed.

(** C6, as amended: the table the builder returns is in ascending order
    of [end_time] and holds the deduplicated rows. *)
Theorem dataset_sorted_by_end_time (json_files : list (option ArchiveFile)) :
  StronglySorted (fun a b => end_time a <= end_time b)
                 (process_all_files json_files) /\
  Permutation (drop_duplicates url (collect_games json_files))
              (process_all_files json_files).
Proof.
  split; [|apply process_all_files_perm].
  unfold process_all_files.
  destruct json_files as [|data rest]; [constructor|].
  destruct (collect_games (data :: rest)) as [|row rows];
    [constructor | apply sort_values_ordered].
Qed.

End BuilderClaims.

(** C5, on an archive that holds a game twice: the second copy is gone. *)
Example dedup_sample :
  map url (@process_all_files Samples.chess Samples.clock Sorts.stable_table
             BuilderSamples.archives)
  = ["https://www.chess.com/game/live/1"; "https://www.chess.com/game/live/2"].
Proof. vm_compute. reflexivity. Qed.

(** With the sort that keeps ties in place the two games of the sample
    come out in input order. *)
Example tie_order_kept_by_stable_sort :
  map url (@process_all_files Samples.chess Samples.clock Sorts.stable_table
             BuilderSamples.archives)
  = map url (drop_duplicates url
               (@collect_games Samples.chess Samples.clock
                  BuilderSamples.archives)).
Proof. vm_compute. reflexivity. Qed.

(** The vectorised sort, too, leaves two games that ended at the same
    second in input order. *)
Example two_ties_kept_by_vectorised_sort :
  map url (@process_all_files Samples.chess Samples.clock
             Sorts.vectorised_table BuilderSamples.archives)
  = map url (drop_duplicates url
               (@collect_games Samples.chess Samples.clock
                  BuilderSamples.archives)).
Proof. vm_compute. reflexivity. Qed.

Module TieSamples.

Definition game_at (moment : Z) (address : string) : RawGame :=
  {| g_white := Some (Samples.player "alice" 1500 "win");
     g_black := Some (Samples.player "bob" 1400 "resigned");
     g_end_time := Some moment;
     g_time_control := Some "600";
     g_url := Some address;
     g_pgn := Some "";
     g_result := None |}.

(** One archive of four games: two that ended at the same second, then
    two that ended together a minute before them. *)
Definition archives : list (option ArchiveFile) :=
  [Some {| games := Some
             [game_at 1700000060 "https://www.chess.com/game/live/11";
              game_at 1700000060 "https://www.chess.com/game/live/12";
              game_at 1700000000 "https://www.chess.com/game/live/13";
              game_at 1700000000 "https://www.chess.com/game/live/14"] |}].

End TieSamples.

(** C6 as stated fails: the default algorithm of [sort_values] does not
    keep the order of rows with equal [end_time].  On four games of which
    the first two ended at one second and the last two at an earlier one,
    the sorting network exchanges the outer and the inner pair: the
    sorted table holds the rows in the order fourth, third, second,
    first, so each pair of rows with equal [end_time] is reversed. *)
Lemma tie_order_not_kept :
  exists first second third fourth,
    drop_duplicates url
      (@collect_games Samples.chess Samples.clock TieSamples.archives)
    = [first; second; third; fourth] /\
    end_time first = end_time second /\
    end_time third = end_time fourth /\
    end_time third < end_time first /\
    url first <> url second /\
    url third <> url fourth /\
    @process_all_files Samples.chess Samples.clock Sorts.vectorised_table
      TieSamples.archives
    = [fourth; third; second; first].
Proof.
  do 4 eexists.
  split; [vm_compute; reflexivity|].
  split; [reflexivity|].
  split; [reflexivity|].
  split; [reflexivity|].
  split; [simpl; discriminate|].
  split; [simpl; discriminate|].
  vm_compute. reflexivity.
Qed.


(* ================================================================== *)
(** ** Properties of the perspective projector *)
(* ================================================================== *)

Module ProjectorSamples.

Import Perspective.

(** Alice (1500) beat Bob (1400) with the white pieces. *)
Definition alice_bob : CsvRow :=
  {| csv_white_username := Str "alice";
     csv_black_username := Str "bob";
     csv_white_rating := 1500;
     csv_black_rating := 1400;
     csv_winner := Str "alice";
     csv_end_date := Str "2023-11-14";
     csv_end_time := 1700000000;
     csv_end_datetime := Str "2023-11-14 22:13:20";
     csv_game_type := Str "blitz";
     csv_opening_name := NaN;
     csv_move_count := 0;
     csv_url := Str "https://www.chess.com/game/live/1" |}.

(** A game of Alice and Bob whose winner field is empty, as it is read
    back from the canonical table. *)
Definition unresolved_game : CsvRow :=
  {| csv_white_username := Str "alice";
     csv_black_username := Str "bob";
     csv_white_rating := 1500;
     csv_black_rating := 1400;
     csv_winner := NaN;
     csv_end_date := Str "2023-11-14";
     csv_end_time := 1700000000;
     csv_end_datetime := Str "2023-11-14 22:13:20";
     csv_game_type := Str "blitz";
     csv_opening_name := NaN;
     csv_move_count := 0;
     csv_url := Str "https://www.chess.com/game/live/3" |}.

End ProjectorSamples.

Section ProjectorClaims.

Import Perspective.

(** The perspective rows of one canonical row: the white side first, then
    the black side, each when its username is a subject. *)
Definition rows_for (subjects : list string) (row : CsvRow) : list Row :=
  ((if cell_in (csv_white_username row) subjects
    then [generate_row row "white"] else []) ++
   (if cell_in (csv_black_username row) subjects
    then [generate_row row "black"] else []))%list.

Lemma project_from (subjects : list string) (df : list CsvRow) :
  forall perspective_rows : list Row,
    fold_left (append_perspectives subjects) df perspective_rows
    = (perspective_rows ++ flat_map (rows_for subjects) df)%list.
Proof.
  induction df as [|row rest IH]; intros perspective_rows; simpl.
  - now rewrite app_nil_r.
  - rewrite IH. unfold append_perspectives, rows_for.
    destruct (cell_in (csv_white_username row) subjects),
             (cell_in (csv_black_username row) subjects);
      simpl; repeat rewrite <- app_assoc; reflexivity.
Qed.

Lemma project_rows (subjects : list string) (df : list CsvRow) :
  project df subjects = flat_map (rows_for subjects) df.
Proof.
  unfold project. now rewrite project_from.
Qed.

(** C7: for every table and subject list the projector emits, for each
    canonical row in turn, one perspective row per side whose username is
    a subject, the white side first: none when neither side matches, two
    when both match.  The rating difference of a perspective row is the
    player's rating minus the opponent's, so the two rows of a game have
    differences of equal magnitude and opposite sign. *)
Theorem one_row_per_tracked_side (df : list CsvRow) (subjects : list string) :
  project df subjects = flat_map (rows_for subjects) df /\
  (forall row,
      let white_in := cell_in (csv_white_username row) subjects in
      let black_in := cell_in (csv_black_username row) subjects in
      let white_row := generate_row row "white" in
      let black_row := generate_row row "black" in
      project [row] subjects
      = ((if white_in then [white_row] else []) ++
         (if black_in then [black_row] else []))%list /\
      List.length (project [row] subjects)
      = ((if white_in then 1 else 0) + (if black_in then 1 else 0))%nat /\
      player_name white_row = csv_white_username row /\
      player_name black_row = csv_black_username row /\
      player_color white_row = "white" /\
      player_color black_row = "black" /\
      rating_diff white_row = player_rating white_row - opponent_rating white_row /\
      rating_diff black_row = player_rating black_row - opponent_rating black_row /\
      rating_diff white_row = csv_white_rating row - csv_black_rating row /\
      rating_diff black_row = - rating_diff white_row /\
      Z.abs (rating_diff black_row) = Z.abs (rating_diff white_row)).
Proof.
  split; [apply project_rows|].
  intros row white_in black_in white_row black_row.
  assert (Hopp : rating_diff black_row = - rating_diff white_row).
  { unfold black_row, white_row. simpl. lia. }
  split.
  { rewrite project_rows. simpl. unfold rows_for.
    now rewrite app_nil_r. }
  split.
  { rewrite project_rows. simpl. unfold rows_for.
    fold white_in black_in. rewrite app_nil_r.
    destruct white_in, black_in; reflexivity. }
  repeat split; try reflexivity; try exact Hopp.
  rewrite Hopp. apply Z.abs_opp.
Qed.

(** C8: the difficulty category of a perspective row is given by the
    first rule that matches its rating difference: at least 100, at least
    25, above -25, above -100, otherwise.  The values 100, 25, -25 and
    -100 fall in the first, second, fourth and fifth bucket. *)
Theorem difficulty_first_match (row : CsvRow) (perspective : string) :
  let r := generate_row row perspective in
  let diff := rating_diff r in
  (100 <= diff -> difficulty_category r = "Much Stronger (+100+)") /\
  (25 <= diff < 100 -> difficulty_category r = "Stronger (+25 to +99)") /\
  (-25 < diff < 25 -> difficulty_category r = "Similar (±25)") /\
  (-100 < diff <= -25 -> difficulty_category r = "Weaker (-25 to -99)") /\
  (diff <= -100 -> difficulty_category r = "Much Weaker (-100+)") /\
  (diff = 100 -> difficulty_category r = "Much Stronger (+100+)") /\
  (diff = 25 -> difficulty_category r = "Stronger (+25 to +99)") /\
  (diff = -25 -> difficulty_category r = "Weaker (-25 to -99)") /\
  (diff = -100 -> difficulty_category r = "Much Weaker (-100+)").
Proof.
  intros r diff.
  assert (Hcat : difficulty_category r = difficulty_bucket diff) by reflexivity.
  rewrite Hcat. unfold difficulty_bucket.
  repeat split; intros H;
    destruct (Z.geb_spec diff 100); try lia;
    destruct (Z.geb_spec diff 25); try lia;
    destruct (Z.gtb_spec diff (-25)); try lia;
    destruct (Z.gtb_spec diff (-100)); try lia; reflexivity.
Qed.

End ProjectorClaims.

Section StatusClaims.

Import Perspective.

Context {table : TableLib}.

Lemma project_In (df : list CsvRow) (subjects : list string) (r : Row) :
  In r (project df subjects) ->
  exists row perspective,
    In row df /\ r = generate_row row perspective /\
    cell_in (player_name r) subjects = true.
Proof.
  rewrite project_rows. intros Hin.
  apply in_flat_map in Hin. destruct Hin as (row & Hrow & Hr).
  unfold rows_for in Hr. apply in_app_or in Hr.
  destruct Hr as [Hr|Hr].
  - destruct (cell_in (csv_white_username row) subjects) eqn:Hw;
      [|contradiction].
    destruct Hr as [<-|[]]. exists row, "white". now repeat split.
  - destruct (cell_in (csv_black_username row) subjects) eqn:Hb;
      [|contradiction].
    destruct Hr as [<-|[]]. exists row, "black". now repeat split.
Qed.

Lemma cell_in_Str (c : Cell) (subjects : list string) :
  cell_in c subjects = true -> exists name, c = Str name.
Proof.
  destruct c as [|name]; [|now exists name].
  unfold cell_in. intros H. apply existsb_exists in H.
  destruct H as (s & _ & Hs). discriminate.
Qed.

(** A text cell as [pd.read_csv] returns it: an empty field and the text
    [nan] are both read as the float [nan], so a cell that holds a string
    holds neither. *)
Definition as_read (c : Cell) : bool :=
  match c with
  | NaN => true
  | Str s => negb (String.eqb s "" || String.eqb s "nan")
  end.

(** The table [df] that [create_perspective_data] gets from
    [pd.read_csv]: the cells of the columns [white_username],
    [black_username] and [winner] are as read. *)
Definition table_as_read (df : list CsvRow) : bool :=
  forallb (fun row =>
             as_read (csv_white_username row) &&
             as_read (csv_black_username row) &&
             as_read (csv_winner row)) df.

Lemma as_read_name (name : string) :
  as_read (Str name) = true -> name <> "" /\ name <> "nan".
Proof.
  unfold as_read. intros H. apply negb_true_iff, orb_false_iff in H.
  destruct H as [He Hn].
  split; intros ->; discriminate.
Qed.

(** Every row of the perspective table is a generated row with its
    flags; its player is named, with a username of a row of [df]. *)
Lemma create_perspective_data_In (df : list CsvRow)
    (subjects : option (list string)) (out : list BiRow) (r : BiRow) :
  create_perspective_data (Some df) subjects = Some out ->
  In r out ->
  exists row perspective name,
    In row df /\
    r = with_flags (generate_row row perspective) /\
    player_name (generate_row row perspective) = Str name /\
    (csv_white_username row = Str name \/ csv_black_username row = Str name).
Proof.
  unfold create_perspective_data.
  set (chosen := match subjects with
                 | Some given => given
                 | None => _
                 end).
  destruct (project df chosen) as [|r0 rows] eqn:Hproj; [discriminate|].
  intros Hout Hin. injection Hout as <-.
  apply (Permutation_in _ (Permutation_sym (sort_values_perm _ _ _))) in Hin.
  change (In r (map with_flags (r0 :: rows))) in Hin.
  apply in_map_iff in Hin. destruct Hin as (r1 & <- & Hr1).
  rewrite <- Hproj in Hr1. apply project_In in Hr1.
  destruct Hr1 as (row & perspective & Hrow & -> & Hcell).
  apply cell_in_Str in Hcell. destruct Hcell as (name & Hname).
  exists row, perspective, name.
  split; [exact Hrow|]. split; [reflexivity|]. split; [exact Hname|].
  cbn [generate_row player_name] in Hname.
  destruct (String.eqb perspective "white"); [now left | now right].
Qed.

Lemma generate_row_status (row : CsvRow) (perspective : string) :
  let r := generate_row row perspective in
  (result_status r = "Draw" /\ py_str (csv_winner row) = "draw") \/
  (result_status r = "Win" /\ py_str (csv_winner row) <> "draw" /\
   player_name r = Str (py_str (csv_winner row))) \/
  (result_status r = "Loss" /\ py_str (csv_winner row) <> "draw" /\
   player_name r <> Str (py_str (csv_winner row))).
Proof.
  simpl.
  destruct (String.eqb_spec (py_str (csv_winner row)) "draw") as [Hd|Hd].
  - left. now split.
  - right.
    set (player := if String.eqb perspective "white"
                   then csv_white_username row else csv_black_username row).
    destruct player as [|name] eqn:Hp; simpl.
    + right. repeat split; [assumption | discriminate].
    + destruct (String.eqb_spec (py_str (csv_winner row)) name) as [He|He].
      * left. repeat split; [assumption | now rewrite He].
      * right. repeat split; [assumption|]. intros Heq. injection Heq as Heq.
        congruence.
Qed.

(** C10: on the table as [pd.read_csv] returns it, every row of the
    perspective table has the status Win, Draw or Loss and exactly one of
    its flags [is_win], [is_loss], [is_draw] is 1, the other two being 0.
    A canonical row whose winner is empty, which is read as the missing
    value, gives the status Loss, and so [is_loss] = 1, for every tracked
    subject on that row. *)
Theorem status_and_flags (df : list CsvRow)
    (subjects : option (list string)) (out : list BiRow) (r : BiRow) :
  table_as_read df = true ->
  create_perspective_data (Some df) subjects = Some out ->
  In r out ->
  ((result_status (fields r) = "Win" /\
    is_win r = 1 /\ is_loss r = 0 /\ is_draw r = 0) \/
   (result_status (fields r) = "Draw" /\
    is_win r = 0 /\ is_loss r = 0 /\ is_draw r = 1) \/
   (result_status (fields r) = "Loss" /\
    is_win r = 0 /\ is_loss r = 1 /\ is_draw r = 0)) /\
  (forall row perspective,
      r = with_flags (generate_row row perspective) ->
      csv_winner row = NaN \/ csv_winner row = Str "" ->
      result_status (fields r) = "Loss" /\ is_loss r = 1).
Proof.
  intros Hread Hout Hin.
  destruct (create_perspective_data_In df subjects out r Hout Hin)
    as (row & perspective & name & Hrow & -> & Hname & Hcell).
  assert (Hgood : name <> "" /\ name <> "nan").
  { unfold table_as_read in Hread.
    rewrite forallb_forall in Hread. specialize (Hread row Hrow).
    apply andb_true_iff in Hread. destruct Hread as [Hread _].
    apply andb_true_iff in Hread. destruct Hread as [Hw Hb].
    destruct Hcell as [Hc|Hc]; [rewrite Hc in Hw | rewrite Hc in Hb];
      now apply as_read_name. }
  destruct Hgood as [Hne Hnn].
  split.
  - destruct (generate_row_status row perspective) as [[Hs _]|[[Hs _]|[Hs _]]];
      unfold with_flags; cbn [fields is_win is_loss is_draw]; rewrite Hs.
    + right. left. repeat split; reflexivity.
    + left. repeat split; reflexivity.
    + right. right. repeat split; reflexivity.
  - intros row' perspective' Heq Hwin.
    assert (Hrows : generate_row row perspective
                    = generate_row row' perspective')
      by exact (f_equal fields Heq).
    rewrite Hrows in *. clear Heq Hrows.
    destruct (generate_row_status row' perspective')
      as [[_ Hd]|[[_ [_ Hp]]|[Hs _]]].
    + destruct Hwin as [Hwin|Hwin]; rewrite Hwin in Hd; discriminate.
    + rewrite Hname in Hp. injection Hp as Hp.
      destruct Hwin as [Hwin|Hwin]; rewrite Hwin in Hp; cbn [py_str] in Hp;
        congruence.
    + unfold with_flags; cbn [fields is_loss]. rewrite Hs.
      split; reflexivity.
Qed.

(** A winner cell without a value is the float [nan], which [str] turns
    into the text [nan]: the status is Loss for every side whose username
    is not that text. *)
Lemma missing_winner_is_loss (row : CsvRow) (perspective : string) :
  csv_winner row = NaN ->
  player_name (generate_row row perspective) <> Str "nan" ->
  result_status (generate_row row perspective) = "Loss".
Proof.
  intros Hwin Hname.
  destruct (generate_row_status row perspective)
    as [[_ Hd]|[[_ [_ Hp]]|[Hs _]]].
  - rewrite Hwin in Hd. discriminate.
  - rewrite Hwin in Hp. contradiction.
  - exact Hs.
Qed.

End StatusClaims.

(** C7, on the game of Alice and Bob with both of them tracked. *)
Example both_sides_tracked :
  map (fun r => (Perspective.player_name r, Perspective.player_color r,
                 Perspective.rating_diff r, Perspective.result_status r))
      (Perspective.project [ProjectorSamples.alice_bob] ["bob"; "alice"])
  = [(Str "alice", "white", 100, "Win"); (Str "bob", "black", -100, "Loss")].
Proof. vm_compute. reflexivity. Qed.

(** C8, on the white side of the game of Alice and Bob: the difference is
    100. *)
Lemma difficulty_first_match_witness :
  Perspective.rating_diff
    (Perspective.generate_row ProjectorSamples.alice_bob "white") = 100 /\
  Perspective.difficulty_category
    (Perspective.generate_row ProjectorSamples.alice_bob "white")
  = "Much Stronger (+100+)".
Proof.
  split; [reflexivity|].
  exact (proj1 (difficulty_first_match ProjectorSamples.alice_bob "white")
               (Z.le_refl 100)).
Defined.

(** C10, on the game with an empty winner field, read back with Alice
    and Bob tracked: both rows are losses. *)
Lemma status_and_flags_witness :
  let table := [ProjectorSamples.unresolved_game] in
  let white := Perspective.with_flags
                 (Perspective.generate_row
                    ProjectorSamples.unresolved_game "white") in
  let black := Perspective.with_flags
                 (Perspective.generate_row
                    ProjectorSamples.unresolved_game "black") in
  table_as_read table = true /\
  @Perspective.create_perspective_data Sorts.stable_table
    (Some table) (Some ["alice"; "bob"])
  = Some [white; black] /\
  In black [white; black] /\
  Perspective.result_status (Perspective.fields black) = "Loss" /\
  Perspective.is_loss black = 1.
Proof.
  intros table white black.
  assert (Hread : table_as_read table = true) by reflexivity.
  assert (Hout : @Perspective.create_perspective_data Sorts.stable_table
                   (Some table) (Some ["alice"; "bob"])
                 = Some [white; black]) by (vm_compute; reflexivity).
  assert (Hin : In black [white; black]) by (right; left; reflexivity).
  split; [exact Hread|]. split; [exact Hout|]. split; [exact Hin|].
  apply (proj2 (@status_and_flags Sorts.stable_table table _ _ black
                  Hread Hout Hin)
               ProjectorSamples.unresolved_game "black").
  - reflexivity.
  - left. reflexivity.
Defined.


(* ================================================================== *)
(** ** Further properties of the record normaliser *)
(* ================================================================== *)

Section NormalizerRows.

Context {chess : ChessLib} {clock : DatetimeLib}.

(** The fields of an emitted row, as [extract_game_data] fills them. *)
Lemma extract_game_data_fields (game : RawGame) (row : CanonicalRow) :
  extract_game_data game = Some row ->
  exists white black,
    g_white game = Some white /\ g_black game = Some black /\
    white_rating row = PyStr.get (p_rating white) 0 /\
    black_rating row = PyStr.get (p_rating black) 0 /\
    rating_diff row = white_rating row - black_rating row /\
    end_time row = PyStr.get (g_end_time game) 0 /\
    (end_date row, end_datetime row, year row, month row)
    = time_fields (end_time row) /\
    time_control row = PyStr.get (g_time_control game) "" /\
    game_type row = classify_time_control (time_control row) /\
    url row = PyStr.get (g_url game) "" /\
    pgn row = PyStr.get (g_pgn game) "" /\
    move_count row = ni_move_count (notation_info game) /\
    eco_code row = ni_eco_code (notation_info game) /\
    opening_name row = ni_opening_name (notation_info game) /\
    pgn_result row = ni_result (notation_info game).
Proof.
  unfold extract_game_data.
  destruct (validate_chess_data game) eqn:Hv; [|discriminate]. simpl.
  apply validate_chess_data_true in Hv.
  destruct Hv as (w & b & t & n & Hw & Hb & Ht & Hn).
  unfold extract_body, notation_info. rewrite Hw, Hb. simpl.
  destruct (time_fields (PyStr.get (g_end_time game) 0))
    as [[[d dt] y] m] eqn:Htime.
  destruct (resolve_outcome _ _ _ _ _) as [[[win res] cat]|e]; [|discriminate].
  simpl. intros Hrow. injection Hrow as <-. simpl.
  exists w, b. rewrite Htime. repeat split; reflexivity.
Qed.

End NormalizerRows.

Lemma classify_time_control_values (tc : string) :
  In (classify_time_control tc) ["bullet"; "blitz"; "rapid"; "daily"; "unknown"] /\
  (classify_time_control tc = "daily" -> PyStr.contains "/" tc = true) /\
  (classify_time_control tc = "unknown" -> PyStr.contains "/" tc = false).
Proof.
  unfold classify_time_control.
  destruct (PyStr.int (hd "" (PyStr.split "+" tc))) as [base|e]; simpl.
  - destruct (base <=? 180); [|destruct (base <=? 600)];
      (split; [simpl; tauto | split; discriminate]).
  - destruct (PyStr.contains "/" tc);
      (split; [simpl; tauto | split; congruence]).
Qed.

Lemma contains_self_half : PyStr.contains "1/2-1/2" "1/2-1/2" = true.
Proof. reflexivity. Qed.

Lemma resolve_outcome_result
    (white_name black_name white_result black_result : string)
    (entry : option (option string)) (win res cat : string) :
  resolve_outcome white_name black_name white_result black_result entry
  = Ok (win, res, cat) ->
  res = "1-0" \/ res = "0-1" \/ res = "1/2-1/2" \/
  PyStr.get entry (Some "1/2-1/2") = Some res.
Proof.
  unfold resolve_outcome.
  destruct (String.eqb white_result "win").
  { intros H; injection H as _ <- _. now left. }
  destruct (String.eqb black_result "win").
  { intros H; injection H as _ <- _. now right; left. }
  destruct (existsb is_draw_token [white_result; black_result]).
  { intros H; injection H as _ <- _. now right; right; left. }
  destruct (PyStr.get entry (Some "1/2-1/2")) as [declared|]; [|discriminate].
  intros H; injection H as _ <- _. now right; right; right.
Qed.

Section NormalizerExtras.

Context {chess : ChessLib} {clock : DatetimeLib}.

(** X1: a record whose present fields have the types of the archive
    API (the records [RawGame] holds) is rejected exactly when a required
    key is absent, or when neither token is [win] or a draw token and the
    notation declared no result.  A present field of another type, such
    as a rating that is [null], is outside [RawGame] and outside this
    statement. *)
Theorem rejected_iff (game : RawGame) :
  extract_game_data game = None <->
  missing_required game \/
  (outcome_token (g_white game) <> "win" /\
   outcome_token (g_black game) <> "win" /\
   is_draw_token (outcome_token (g_white game)) = false /\
   is_draw_token (outcome_token (g_black game)) = false /\
   ni_result (notation_info game) = None).
Proof.
  split.
  - intros Hnone.
    destruct (validate_chess_data game) eqn:Hv.
    2:{ left. now apply validate_chess_data_false. }
    right.
    destruct (game_outcome game) as [[[win res] cat]|e] eqn:Hout.
    { destruct (extract_game_data_resolved game win res cat Hv Hout)
        as (row & Hrow & _). congruence. }
    unfold game_outcome, resolve_outcome in Hout.
    destruct (String.eqb_spec (outcome_token (g_white game)) "win");
      [discriminate|].
    destruct (String.eqb_spec (outcome_token (g_black game)) "win");
      [discriminate|].
    simpl in Hout.
    destruct (is_draw_token (outcome_token (g_white game)));
      [discriminate|].
    destruct (is_draw_token (outcome_token (g_black game)));
      [discriminate|].
    simpl in Hout.
    destruct (ni_result (notation_info game)); [discriminate|].
    repeat split; assumption.
  - intros [Hm | (Hw & Hb & Hdw & Hdb & Hres)].
    + apply validate_chess_data_false in Hm.
      unfold extract_game_data. now rewrite Hm.
    + destruct (validate_chess_data game) eqn:Hv.
      * pose proof (unresolved_outcome game Hv Hw Hb Hdw Hdb) as Hun.
        simpl in Hun. now rewrite Hres in Hun.
      * unfold extract_game_data. now rewrite Hv.
Qed.

(** X2: the game type of an emitted row is one of [bullet], [blitz],
    [rapid], [daily], [unknown]; it is [daily] only for a time control
    that contains a slash and [unknown] only for one that does not. *)
Theorem game_type_values (game : RawGame) (row : CanonicalRow) :
  extract_game_data game = Some row ->
  In (game_type row) ["bullet"; "blitz"; "rapid"; "daily"; "unknown"] /\
  (game_type row = "daily" -> PyStr.contains "/" (time_control row) = true) /\
  (game_type row = "unknown" -> PyStr.contains "/" (time_control row) = false).
Proof.
  intros Hrow.
  destruct (extract_game_data_fields game row Hrow)
    as (w & b & _ & _ & _ & _ & _ & _ & _ & _ & Hgt & _).
  rewrite Hgt. apply classify_time_control_values.
Qed.

(** X3: an emitted row whose timestamp is 0, or whose timestamp the clock
    cannot convert, has the empty text as date, date-time and month and 0
    as year; otherwise the four fields are the clock's renderings of the
    timestamp. *)
Theorem time_fields_of_row (game : RawGame) (row : CanonicalRow) :
  extract_game_data game = Some row ->
  (end_time row = 0 \/ (exists e, fromtimestamp (end_time row) = Raise e) ->
   end_date row = "" /\ end_datetime row = "" /\
   year row = 0 /\ month row = "") /\
  (forall dt, end_time row <> 0 -> fromtimestamp (end_time row) = Ok dt ->
   end_date row = strftime dt "%Y-%m-%d" /\
   end_datetime row = strftime dt "%Y-%m-%d %H:%M:%S" /\
   year row = dt_year dt /\
   month row = strftime dt "%Y-%m").
Proof.
  intros Hrow.
  destruct (extract_game_data_fields game row Hrow)
    as (w & b & _ & _ & _ & _ & _ & _ & Htime & _).
  unfold time_fields in Htime.
  split.
  - intros [Hzero | (e & He)].
    + rewrite Hzero in Htime. simpl in Htime.
      injection Htime as -> -> -> ->. repeat split.
    + rewrite He in Htime.
      destruct (negb (end_time row =? 0)); simpl in Htime;
        injection Htime as -> -> -> ->; repeat split.
  - intros dt Hnz Hdt. rewrite Hdt in Htime.
    apply Z.eqb_neq in Hnz. rewrite Hnz in Htime. simpl in Htime.
    injection Htime as -> -> -> ->. repeat split.
Qed.

(** X4: in every emitted row the winner is one of the two usernames, the
    word [draw] or the empty text; the result is [1-0], [0-1], [1/2-1/2]
    or the result the notation declared; a row whose result is [1/2-1/2]
    has the winner [draw] and the flag [is_draw]; and the rating
    difference is the white rating minus the black rating. *)
Theorem outcome_fields_of_row (game : RawGame) (row : CanonicalRow) :
  extract_game_data game = Some row ->
  (winner row = white_username row \/ winner row = black_username row \/
   winner row = "draw" \/ winner row = "") /\
  (result row = "1-0" \/ result row = "0-1" \/ result row = "1/2-1/2" \/
   pgn_result row = Some (result row)) /\
  (result row = "1/2-1/2" -> winner row = "draw" /\ is_draw row = true) /\
  rating_diff row = white_rating row - black_rating row.
Proof.
  intros Hrow.
  destruct (extract_game_data_some game row Hrow)
    as (_ & Hout & Hwn & Hbn & _ & _ & Hd).
  destruct (extract_game_data_fields game row Hrow)
    as (w & b & _ & _ & _ & _ & Hdiff & _ & _ & _ & _ & _ & _ & _ & _ & _ & Hpr).
  unfold game_outcome in Hout. rewrite <- Hwn, <- Hbn, <- Hpr in Hout.
  split; [eapply resolve_outcome_winner; exact Hout|].
  split; [|split; [|exact Hdiff]].
  - apply resolve_outcome_result in Hout. simpl in Hout. exact Hout.
  - intros Hhalf. rewrite Hd.
    assert (Hw : winner row = "draw").
    { unfold resolve_outcome in Hout.
      destruct (String.eqb (outcome_token (g_white game)) "win").
      { injection Hout as _ Hr _. rewrite Hhalf in Hr. discriminate. }
      destruct (String.eqb (outcome_token (g_black game)) "win").
      { injection Hout as _ Hr _. rewrite Hhalf in Hr. discriminate. }
      destruct (existsb is_draw_token _).
      { now injection Hout as <- _ _. }
      simpl in Hout. destruct (pgn_result row) as [declared|]; [|discriminate].
      injection Hout as Hwin Hr _. rewrite Hhalf in Hr. subst declared.
      rewrite contains_self_half in Hwin. now symmetry. }
    rewrite Hw. split; reflexivity.
Qed.

End NormalizerExtras.

Module MoreSamples.

(** A game that ended at timestamp 0, with a daily time control. *)
Definition epoch_zero : RawGame :=
  {| g_white := Some (Samples.player "alice" 1500 "agreed");
     g_black := Some (Samples.player "bob" 1400 "agreed");
     g_end_time := Some 0;
     g_time_control := Some "1/86400";
     g_url := Some "https://www.chess.com/game/daily/7";
     g_pgn := Some "";
     g_result := None |}.

End MoreSamples.

(** X2, on a daily game. *)
Lemma game_type_values_witness :
  exists row,
    @extract_game_data Samples.chess Samples.clock MoreSamples.epoch_zero
    = Some row /\
    game_type row = "daily" /\
    PyStr.contains "/" (time_control row) = true.
Proof.
  eexists. split; [vm_compute; reflexivity|].
  split; [reflexivity|].
  eapply (@game_type_values Samples.chess Samples.clock MoreSamples.epoch_zero);
    [vm_compute; reflexivity | reflexivity].
Defined.

(** X3, on a game whose timestamp is 0. *)
Lemma time_fields_of_row_witness :
  exists row,
    @extract_game_data Samples.chess Samples.clock MoreSamples.epoch_zero
    = Some row /\
    end_time row = 0 /\
    end_date row = "" /\ end_datetime row = "" /\
    year row = 0 /\ month row = "".
Proof.
  eexists. split; [vm_compute; reflexivity|].
  split; [reflexivity|].
  eapply (@time_fields_of_row Samples.chess Samples.clock
            MoreSamples.epoch_zero);
    [vm_compute; reflexivity | left; reflexivity].
Defined.

(** X4, on the same game, which was drawn by agreement. *)
Lemma outcome_fields_of_row_witness :
  exists row,
    @extract_game_data Samples.chess Samples.clock MoreSamples.epoch_zero
    = Some row /\
    result row = "1/2-1/2" /\
    winner row = "draw" /\ is_draw row = true.
Proof.
  eexists. split; [vm_compute; reflexivity|].
  split; [reflexivity|].
  eapply (@outcome_fields_of_row Samples.chess Samples.clock
            MoreSamples.epoch_zero);
    [vm_compute; reflexivity | reflexivity].
Defined.

Section EmptyNotation.

Context {clock : DatetimeLib}.

(** X5: a record whose notation text is empty is normalised without the
    notation library: the outcome of [extract_game_data] is the same for
    every library, and an emitted row has move count 0, no opening code,
    no opening name, no declared result, and one of the results [1-0],
    [0-1], [1/2-1/2]. *)
Theorem empty_notation_row (chess1 chess2 : ChessLib) (game : RawGame) :
  g_pgn game = Some "" ->
  @extract_game_data chess1 clock game = @extract_game_data chess2 clock game /\
  (forall row,
      @extract_game_data chess1 clock game = Some row ->
      move_count row = 0 /\ eco_code row = None /\
      opening_name row = None /\ pgn_result row = None /\
      (result row = "1-0" \/ result row = "0-1" \/ result row = "1/2-1/2")).
Proof.
  intros Hpgn.
  split.
  - unfold extract_game_data, extract_body. rewrite Hpgn. reflexivity.
  - intros row Hrow.
    destruct (@extract_game_data_fields chess1 clock game row Hrow)
      as (w & b & _ & _ & _ & _ & _ & _ & _ & _ & _ & _ & _
          & Hmc & Heco & Hop & Hpr).
    unfold notation_info in *. rewrite Hpgn in *. simpl in *.
    repeat split; try assumption.
    destruct (@extract_game_data_some chess1 clock game row Hrow)
      as (_ & Hout & _).
    apply resolve_outcome_result in Hout.
    unfold notation_info in Hout. rewrite Hpgn in Hout. simpl in Hout.
    destruct Hout as [H|[H|[H|H]]]; try tauto. discriminate.
Qed.

End EmptyNotation.

(** X5, on the game drawn by agreement, read with two notation libraries. *)
Lemma empty_notation_row_witness :
  g_pgn MoreSamples.epoch_zero = Some "" /\
  @extract_game_data Samples.chess Samples.clock MoreSamples.epoch_zero
  = @extract_game_data ParserSamples.chess Samples.clock MoreSamples.epoch_zero.
Proof.
  split; [reflexivity|].
  exact (proj1 (@empty_notation_row Samples.clock Samples.chess
                  ParserSamples.chess MoreSamples.epoch_zero eq_refl)).
Defined.


(* ================================================================== *)
(** ** Further properties of the notation parser *)
(* ================================================================== *)

Module MoreParserSamples.

(** A game of three half-moves with an opening header and an opening
    address. *)
Definition italian_text : string :=
  ParserSamples.tag "Opening" "Italian Game"
  ++ ParserSamples.tag "ECOUrl" "https://www.chess.com/openings/Giuoco-Piano"
  ++ ParserSamples.newline ++ "1. e4 e5 2. Nf3 *".

Definition italian_game : Fixtures.ScriptedGame :=
  {| Fixtures.sg_headers :=
       [("Result", "*"); ("Opening", "Italian Game");
        ("ECOUrl", "https://www.chess.com/openings/Giuoco-Piano")];
     Fixtures.sg_board := Ok tt;
     Fixtures.sg_moves := [true; true; true] |}.

Definition chess : ChessLib :=
  Fixtures.scripted_chess [(italian_text, italian_game)].

End MoreParserSamples.

Section ParserExtras.

Context {chess : ChessLib}.

Lemma replay_count (moves : list Move) :
  forall (board : Board) (count n : Z),
    replay board moves count = Ok n ->
    n = count + Z.of_nat (List.length moves).
Proof.
  induction moves as [|move rest IH]; intros board count n; simpl.
  - intros H; injection H as <-. lia.
  - destruct (board_push board move) as [board'|e]; simpl; [|discriminate].
    intros H. apply IH in H. lia.
Qed.

Lemma replay_playable (moves : list Move) :
  (forall b m, In m moves -> exists b', board_push b m = Ok b') ->
  forall (board : Board) (count : Z),
    replay board moves count = Ok (count + Z.of_nat (List.length moves)).
Proof.
  induction moves as [|move rest IH]; intros Hplay board count; simpl.
  - f_equal. lia.
  - destruct (Hplay board move (or_introl eq_refl)) as (board' & Hpush).
    rewrite Hpush. simpl.
    rewrite IH; [f_equal; lia|].
    intros b m Hin. apply Hplay. now right.
Qed.

(** X6: the move count [parse_pgn_game] returns is 0 or the number of
    moves of the main line of the game read, never a partial count.  When
    a game is read, its starting position can be built and every move of
    its main line can be played, the parse does not fail, the move count
    is the number of moves of the main line, and the opening code and the
    result are the ones of the headers. *)
Theorem move_count_all_or_nothing (pgn_string : string) :
  (ni_move_count (parse_pgn_game pgn_string) = 0 \/
   exists game,
     read_game pgn_string = Ok (Some game) /\
     ni_move_count (parse_pgn_game pgn_string)
     = Z.of_nat (List.length (mainline_moves game))) /\
  (forall game board,
      read_game pgn_string = Ok (Some game) ->
      game_board game = Ok board ->
      (forall b m, In m (mainline_moves game) ->
                   exists b', board_push b m = Ok b') ->
      parse_failed pgn_string = false /\
      ni_move_count (parse_pgn_game pgn_string)
      = Z.of_nat (List.length (mainline_moves game)) /\
      ni_eco_code (parse_pgn_game pgn_string) = headers_get game "ECO" /\
      ni_result (parse_pgn_game pgn_string) = headers_get game "Result").
Proof.
  split.
  - unfold parse_pgn_game, parse_body.
    destruct (read_game pgn_string) as [[game|]|e] eqn:Hr; simpl;
      try (left; reflexivity).
    destruct (game_board game) as [board|e]; simpl; [|left; reflexivity].
    destruct (replay board (mainline_moves game) 0) as [n|e] eqn:Hn; simpl;
      [|left; reflexivity].
    right. exists game. split; [reflexivity|].
    apply replay_count in Hn. lia.
  - intros game board Hr Hb Hplay.
    unfold parse_failed, parse_pgn_game, parse_body.
    rewrite Hr, Hb.
    rewrite (replay_playable (mainline_moves game) Hplay board 0). simpl.
    repeat split.
Qed.

(** X7: when a game is read, a non-empty [Opening] header is the opening
    name whatever the [ECOUrl] header holds; with neither header the
    opening name is null. *)
Theorem opening_header_first (pgn_string : string) (game : Game) :
  read_game pgn_string = Ok (Some game) ->
  (forall name,
      headers_get game "Opening" = Some name -> name <> "" ->
      ni_opening_name (parse_pgn_game pgn_string) = Some name) /\
  (headers_get game "Opening" = None ->
   headers_get game "ECOUrl" = None ->
   ni_opening_name (parse_pgn_game pgn_string) = None).
Proof.
  intros Hr.
  unfold parse_pgn_game, parse_body. rewrite Hr.
  split.
  - intros name Hname Hne. rewrite Hname.
    assert (Ht : opt_truthy (Some name) = true).
    { destruct name; [contradiction | reflexivity]. }
    rewrite Ht. simpl.
    destruct (game_board game) as [board|e]; simpl; [|reflexivity].
    destruct (replay board (mainline_moves game) 0); reflexivity.
  - intros Hop Hurl. rewrite Hop, Hurl. simpl.
    destruct (game_board game) as [board|e]; simpl; [|reflexivity].
    destruct (replay board (mainline_moves game) 0); reflexivity.
Qed.

End ParserExtras.

(** X6, on a game of three half-moves. *)
Lemma move_count_all_or_nothing_witness :
  @parse_failed MoreParserSamples.chess MoreParserSamples.italian_text = false /\
  ni_move_count
    (@parse_pgn_game MoreParserSamples.chess MoreParserSamples.italian_text)
  = 3.
Proof.
  assert (Hplay : forall (b : unit) (m : bool),
             In m [true; true; true] ->
             exists b', Fixtures.scripted_push b m = Ok b').
  { intros b m [<-|[<-|[<-|[]]]]; exists tt; reflexivity. }
  destruct (proj2 (@move_count_all_or_nothing MoreParserSamples.chess
                     MoreParserSamples.italian_text)
                  MoreParserSamples.italian_game tt eq_refl eq_refl Hplay)
    as (Hok & Hcount & _).
  split; [exact Hok | exact Hcount].
Defined.

(** X7, on the same game: the opening header wins over the address. *)
Lemma opening_header_first_witness :
  ni_opening_name
    (@parse_pgn_game MoreParserSamples.chess MoreParserSamples.italian_text)
  = Some "Italian Game".
Proof.
  apply (proj1 (@opening_header_first MoreParserSamples.chess
                  MoreParserSamples.italian_text
                  MoreParserSamples.italian_game eq_refl)).
  - reflexivity.
  - discriminate.
Defined.


(* ================================================================== *)
(** ** Further properties of the dataset builder *)
(* ================================================================== *)

Section DeduplicationExtras.

Variable A : Type.
Variable key : A -> string.

Lemma drop_duplicates_from_length (rows : list A) :
  forall seen : list string,
    (List.length (drop_duplicates_from key seen rows) <= List.length rows)%nat.
Proof.
  induction rows as [|x rest IH]; intros seen; simpl; [lia|].
  destruct (existsb (String.eqb (key x)) seen); simpl.
  - specialize (IH seen). lia.
  - specialize (IH (key x :: seen)). lia.
Qed.

Lemma drop_duplicates_from_fresh (rows : list A) :
  forall seen : list string,
    NoDup (map key rows) ->
    (forall row, In row rows -> ~ In (key row) seen) ->
    drop_duplicates_from key seen rows = rows.
Proof.
  induction rows as [|x rest IH]; intros seen Hnd Hfresh; simpl;
    [reflexivity|].
  simpl in Hnd. inversion Hnd as [|k ks Hnotin Hrest]; subst.
  destruct (existsb (String.eqb (key x)) seen) eqn:Hseen.
  - apply seen_spec in Hseen. exfalso.
    apply (Hfresh x); [now left | assumption].
  - f_equal. apply IH; [assumption|].
    intros row Hin [Heq | Hin'].
    + apply Hnotin. rewrite Heq. now apply in_map.
    + apply (Hfresh row); [now right | assumption].
Qed.

Lemma drop_duplicates_fixed (rows : list A) :
  NoDup (map key rows) -> drop_duplicates key rows = rows.
Proof.
  intros Hnd. unfold drop_duplicates.
  apply drop_duplicates_from_fresh; [assumption|].
  intros row _ [].
Qed.

End DeduplicationExtras.

Section BuilderExtras.

Context {chess : ChessLib} {clock : DatetimeLib} {table : TableLib}.

(** The table of [process_all_files] in terms of the normalised rows. *)
Lemma process_all_files_rows (json_files : list (option ArchiveFile)) :
  process_all_files json_files
  = match normalized_rows json_files with
    | [] => []
    | all_games => sort_values end_time (drop_duplicates url all_games)
    end.
Proof.
  unfold process_all_files. rewrite collect_games_rows.
  destruct json_files as [|data rest]; reflexivity.
Qed.

(** X8: a file that could not be loaded, or that has no key [games],
    gives no row.  For a file with games, the rows are the ones
    [extract_game_data] emits for its games, in the order of the games;
    there are at most as many rows as games. *)
Theorem process_json_file_contents (data : option ArchiveFile) :
  (data = None \/ (exists d, data = Some d /\ games d = None) ->
   process_json_file data = []) /\
  (forall d batch,
      data = Some d -> games d = Some batch ->
      process_json_file data = rows_of_games batch /\
      (List.length (process_json_file data) <= List.length batch)%nat /\
      (forall row,
          In row (process_json_file data) <->
          exists game, In game batch /\ extract_game_data game = Some row)).
Proof.
  split.
  - intros [-> | (d & -> & Hg)]; [reflexivity|].
    unfold process_json_file. rewrite Hg. reflexivity.
  - intros d batch -> Hg.
    rewrite process_json_file_rows, Hg. simpl.
    split; [reflexivity|]. split.
    + clear Hg. induction batch as [|game rest IH]; simpl; [lia|].
      rewrite length_app.
      destruct (extract_game_data game); simpl; lia.
    + intros row. unfold rows_of_games. rewrite in_flat_map.
      split; intros (game & Hin & Hrow); exists game; (split; [assumption|]).
      * destruct (extract_game_data game) as [r|]; [|contradiction].
        destruct Hrow as [<-|[]]. reflexivity.
      * rewrite Hrow. now left.
Qed.

(** X9: the dataset depends on the files only through the sequence of
    their normalised rows: two lists of files with the same sequence give
    the same dataset.  In particular files that could not be loaded make
    no difference. *)
Theorem dataset_depends_on_rows_only
    (files1 files2 : list (option ArchiveFile)) :
  (normalized_rows files1 = normalized_rows files2 ->
   process_all_files files1 = process_all_files files2) /\
  process_all_files
    (filter (fun data => match data with Some _ => true | None => false end)
            files1)
  = process_all_files files1.
Proof.
  split.
  - intros Heq. now rewrite !process_all_files_rows, Heq.
  - rewrite !process_all_files_rows.
    assert (Heq : normalized_rows
                    (filter (fun data => match data with
                                         | Some _ => true
                                         | None => false
                                         end) files1)
                  = normalized_rows files1).
    { unfold normalized_rows.
      induction files1 as [|data rest IH]; simpl; [reflexivity|].
      destruct data as [d|]; simpl; now rewrite IH. }
    now rewrite Heq.
Qed.

(** X10: the dataset has at most as many rows as there are normalised
    rows, and deduplicating it again by url changes nothing. *)
Theorem dataset_is_deduplicated (json_files : list (option ArchiveFile)) :
  (List.length (process_all_files json_files)
   <= List.length (normalized_rows json_files))%nat /\
  drop_duplicates url (process_all_files json_files)
  = process_all_files json_files.
Proof.
  assert (Hperm : Permutation
                    (drop_duplicates url (normalized_rows json_files))
                    (process_all_files json_files)).
  { rewrite <- collect_games_rows. apply process_all_files_perm. }
  split.
  - rewrite <- (Permutation_length Hperm).
    apply drop_duplicates_from_length.
  - apply drop_duplicates_fixed.
    apply (Permutation_NoDup (Permutation_map url Hperm)).
    apply drop_duplicates_from_NoDup.
Qed.

End BuilderExtras.

(** X9, on two ways of storing the sample games. *)
Lemma dataset_depends_on_rows_only_witness :
  @process_all_files Samples.chess Samples.clock Sorts.stable_table
    [None; Some {| games := Some [BuilderSamples.first_game] |};
     Some {| games := None |};
     Some {| games := Some [BuilderSamples.second_game] |}]
  = @process_all_files Samples.chess Samples.clock Sorts.stable_table
      [Some {| games := Some [BuilderSamples.first_game;
                              BuilderSamples.second_game] |}].
Proof.
  apply (@dataset_depends_on_rows_only Samples.chess Samples.clock
           Sorts.stable_table).
  vm_compute. reflexivity.
Defined.

Module FileSamples.

(** A batch of two valid games and one without the key [end_time]. *)
Definition mixed_batch : list RawGame :=
  [BuilderSamples.first_game; MoreSamples.epoch_zero; Samples.no_end_time].

Definition mixed_file : ArchiveFile := {| games := Some mixed_batch |}.

(** A file without the key [games]. *)
Definition no_games_file : ArchiveFile := {| games := None |}.

End FileSamples.

(** X8, on a file with three games and on a file without games. *)
Lemma process_json_file_contents_witness :
  (List.length
     (@process_json_file Samples.chess Samples.clock
        (Some FileSamples.mixed_file))
   <= List.length FileSamples.mixed_batch)%nat /\
  @process_json_file Samples.chess Samples.clock
    (Some FileSamples.no_games_file) = [].
Proof.
  split.
  - destruct (@process_json_file_contents Samples.chess Samples.clock
                (Some FileSamples.mixed_file)) as [_ Hsome].
    destruct (Hsome FileSamples.mixed_file FileSamples.mixed_batch
                    eq_refl eq_refl) as (_ & Hlen & _).
    exact Hlen.
  - destruct (@process_json_file_contents Samples.chess Samples.clock
                (Some FileSamples.no_games_file)) as [Hnone _].
    apply Hnone. right. exists FileSamples.no_games_file.
    split; reflexivity.
Defined.

(** *** The persisted table *)

(** The preferred column order of [create_processed_dataset]. *)
Definition column_order : list string :=
  ["end_date"; "white_username"; "black_username";
   "white_rating"; "black_rating"; "result"; "winner"; "result_category";
   "game_type"; "opening_name"; "eco_code"; "move_count";
   "white_win"; "black_win"; "is_draw"; "rating_diff";
   "year"; "month"; "time_control";
   "end_datetime"; "end_time"; "url"].

(** The keys of the dictionary [extracted], in the order in which
    [extract_game_data] inserts them: the columns of the table built from
    its rows. *)
Definition extracted_columns : list string :=
  ["white_username"; "black_username"; "white_rating"; "black_rating";
   "result"; "end_time"; "time_control"; "url"; "pgn";
   "end_date"; "end_datetime"; "year"; "month";
   "rating_diff"; "game_type";
   "move_count"; "eco_code"; "opening_name"; "pgn_result";
   "winner"; "result_category";
   "white_win"; "black_win"; "is_draw"].

(** [col in columns] *)
Definition has_column (columns : list string) (col : string) : bool :=
  existsb (String.eqb col) columns.

(** [final_columns] of [create_processed_dataset], from the columns of the
    table. *)
Definition final_columns (columns : list string) : list string :=
  let existing_columns := filter (has_column columns) column_order in
  let other_columns :=
    filter (fun col => (negb (has_column column_order col)
                        && negb (String.eqb col "pgn"))%bool) columns in
  (existing_columns ++ other_columns)%list.

(** A table: its column names and its rows. *)
Record Table : Type := {
  table_columns : list string;
  table_rows : list CanonicalRow
}.

Section Persist.

Context {chess : ChessLib} {clock : DatetimeLib} {table : TableLib}.

(** [save_csv_safely], with the output path fixed: whether the table could
    be written. *)
Variable save_csv_safely : Table -> bool.

(** The table [create_processed_dataset] hands to [save_csv_safely];
    [None] when the dataset is empty. *)
Definition persisted_table (json_files : list (option ArchiveFile))
  : option Table :=
  match process_all_files json_files with
  | [] => None
  | df => Some {| table_columns := final_columns extracted_columns;
                  table_rows := df |}
  end.

(** [ChessProcessor.create_processed_dataset] *)
Definition create_processed_dataset (json_files : list (option ArchiveFile))
  : bool :=
  match persisted_table json_files with
  | None => false
  | Some df => save_csv_safely df
  end.

End Persist.

Lemma has_column_spec (columns : list string) (col : string) :
  has_column columns col = true <-> In col columns.
Proof. apply seen_spec. Qed.

Lemma pgn_not_preferred : has_column column_order "pgn" = false.
Proof. reflexivity. Qed.

Lemma column_order_NoDup : NoDup column_order.
Proof.
  unfold column_order.
  repeat (constructor;
          [simpl; intros H;
           repeat (destruct H as [H|H]; [discriminate H|]); exact H|]).
  constructor.
Qed.

(** X11: whatever the columns of the table, the persisted columns never
    include [pgn]; they are exactly the other columns of the table; the
    preferred columns the table has come first, in the preferred order,
    and the columns after them are not preferred ones; and when no column
    occurs twice in the table, none occurs twice among them. *)
Theorem final_columns_projection (columns : list string) :
  ~ In "pgn" (final_columns columns) /\
  (forall col,
      In col (final_columns columns) <-> In col columns /\ col <> "pgn") /\
  (exists others,
      final_columns columns
      = (filter (has_column columns) column_order ++ others)%list /\
      forall col, In col others -> ~ In col column_order) /\
  (NoDup columns -> NoDup (final_columns columns)).
Proof.
  assert (Hin : forall col,
             In col (final_columns columns) <-> In col columns /\ col <> "pgn").
  { intros col. unfold final_columns. rewrite in_app_iff, !filter_In.
    rewrite andb_true_iff, !negb_true_iff, has_column_spec.
    split.
    - intros [[Hpref Hcol] | [Hcol [Hnot Hpgn]]].
      + split; [assumption|]. intros ->.
        apply has_column_spec in Hpref.
        rewrite pgn_not_preferred in Hpref. discriminate.
      + split; [assumption|]. now apply String.eqb_neq.
    - intros [Hcol Hpgn].
      destruct (has_column column_order col) eqn:Hpref.
      + left. split; [now apply has_column_spec | assumption].
      + right. repeat split; try assumption. now apply String.eqb_neq. }
  split; [|split; [exact Hin|split]].
  - intros Hpgn. apply Hin in Hpgn. now destruct Hpgn.
  - eexists. split; [reflexivity|].
    intros col Hcol Hpref. apply filter_In in Hcol.
    destruct Hcol as [_ Hcol]. apply andb_true_iff in Hcol.
    destruct Hcol as [Hnot _]. apply negb_true_iff in Hnot.
    apply has_column_spec in Hpref. congruence.
  - intros Hnd. unfold final_columns.
    apply NoDup_app.
    + apply NoDup_filter, column_order_NoDup.
    + apply NoDup_filter, Hnd.
    + intros col Hpref Hother.
      apply filter_In in Hpref. destruct Hpref as [Hpref _].
      apply filter_In in Hother. destruct Hother as [_ Hother].
      apply andb_true_iff in Hother. destruct Hother as [Hnot _].
      apply negb_true_iff in Hnot.
      apply has_column_spec in Hpref. congruence.
Qed.

Section PersistExtras.

Context {chess : ChessLib} {clock : DatetimeLib} {table : TableLib}.

Variable save_csv_safely : Table -> bool.

(** X12: [create_processed_dataset] returns [False] without saving when
    the dataset has no row.  Otherwise it saves all the rows of the
    dataset, in their order, under the twenty-two preferred columns
    followed by the column [pgn_result], and returns what the save
    returns. *)
Theorem create_processed_dataset_saves
    (json_files : list (option ArchiveFile)) :
  (process_all_files json_files = [] ->
   persisted_table json_files = None /\
   create_processed_dataset save_csv_safely json_files = false) /\
  (process_all_files json_files <> [] ->
   exists df,
     persisted_table json_files = Some df /\
     table_rows df = process_all_files json_files /\
     table_columns df = (column_order ++ ["pgn_result"])%list /\
     List.length (table_columns df) = 23%nat /\
     create_processed_dataset save_csv_safely json_files
     = save_csv_safely df).
Proof.
  unfold create_processed_dataset, persisted_table.
  destruct (process_all_files json_files) as [|row rows].
  - split; [intros _; split; reflexivity | intros H; now contradiction H].
  - split; [discriminate|]. intros _.
    eexists. repeat split.
Qed.

End PersistExtras.

(** X12, on the sample archive, with a save that succeeds. *)
Lemma create_processed_dataset_saves_witness :
  @create_processed_dataset Samples.chess Samples.clock Sorts.stable_table
    (fun _ => true) BuilderSamples.archives = true /\
  @create_processed_dataset Samples.chess Samples.clock Sorts.stable_table
    (fun _ => true) [None] = false.
Proof.
  split.
  - destruct (proj2 (@create_processed_dataset_saves Samples.chess
                       Samples.clock Sorts.stable_table (fun _ => true)
                       BuilderSamples.archives))
      as (df & _ & _ & _ & _ & Hsave).
    + vm_compute. discriminate.
    + exact Hsave.
  - apply (@create_processed_dataset_saves Samples.chess Samples.clock
             Sorts.stable_table (fun _ => true) [None]).
    reflexivity.
Defined.


(* ================================================================== *)
(** ** Further properties of the perspective projector *)
(* ================================================================== *)

Section ProjectorExtras.

Import Perspective.

Context {table : TableLib}.

Lemma rows_for_length (subjects : list string) (row : CsvRow) :
  (List.length (rows_for subjects row) <= 2)%nat.
Proof.
  unfold rows_for.
  destruct (cell_in (csv_white_username row) subjects),
           (cell_in (csv_black_username row) subjects); simpl; lia.
Qed.

Lemma project_length (subjects : list string) (df : list CsvRow) :
  (List.length (project df subjects) <= 2 * List.length df)%nat.
Proof.
  rewrite project_rows.
  induction df as [|row rest IH]; simpl; [lia|].
  rewrite length_app. pose proof (rows_for_length subjects row). lia.
Qed.

Lemma project_nil_iff (subjects : list string) (df : list CsvRow) :
  project df subjects = [] <->
  forall row, In row df ->
              cell_in (csv_white_username row) subjects = false /\
              cell_in (csv_black_username row) subjects = false.
Proof.
  rewrite project_rows.
  induction df as [|row rest IH]; simpl.
  - split; [intros _ r [] | reflexivity].
  - split.
    + intros Happ. apply app_eq_nil in Happ. destruct Happ as [Hrow Hrest].
      intros r [<-|Hin]; [|now apply IH].
      unfold rows_for in Hrow.
      destruct (cell_in (csv_white_username row) subjects),
               (cell_in (csv_black_username row) subjects);
        simpl in Hrow; try discriminate. now split.
    + intros Hall.
      destruct (Hall row (or_introl eq_refl)) as [Hw Hb].
      unfold rows_for at 1. rewrite Hw, Hb. simpl.
      apply IH. intros r Hin. apply Hall. now right.
Qed.

(** X13: with a given subject list, [create_perspective_data] returns
    [False] exactly when the input file is missing or no row has a subject
    on either side. *)
Theorem no_perspective_table_iff (input : option (list CsvRow))
    (subjects : list string) :
  create_perspective_data input (Some subjects) = None <->
  input = None \/
  exists df,
    input = Some df /\
    forall row, In row df ->
                cell_in (csv_white_username row) subjects = false /\
                cell_in (csv_black_username row) subjects = false.
Proof.
  unfold create_perspective_data.
  destruct input as [df|].
  - pose proof (project_nil_iff subjects df) as Hnil.
    destruct (project df subjects) as [|r rows]; split.
    + intros _. right. exists df. split; [reflexivity|]. now apply Hnil.
    + reflexivity.
    + discriminate.
    + intros [H | (df' & Hdf & H)]; [discriminate|].
      injection Hdf as <-. apply Hnil in H. discriminate.
  - split; [now left | reflexivity].
Qed.

(** X14: the perspective table that [create_perspective_data] writes for
    a given subject list is not empty, is in ascending order of game time,
    holds exactly the generated rows with their flags, at most two per row
    of the input, and the player of each of its rows is a subject. *)
Theorem perspective_table_contract (input : option (list CsvRow))
    (subjects : list string) (out : list BiRow) :
  create_perspective_data input (Some subjects) = Some out ->
  out <> [] /\
  StronglySorted (fun a b => game_time (fields a) <= game_time (fields b)) out /\
  (forall r, In r out ->
             cell_in (player_name (fields r)) subjects = true) /\
  exists df,
    input = Some df /\
    Permutation (map with_flags (project df subjects)) out /\
    (List.length out <= 2 * List.length df)%nat.
Proof.
  unfold create_perspective_data.
  destruct input as [df|]; [|discriminate].
  destruct (project df subjects) as [|r0 rows] eqn:Hproj; [discriminate|].
  intros Hout. injection Hout as <-.
  set (flagged := map with_flags (r0 :: rows)).
  change (with_flags r0 :: map with_flags rows) with flagged.
  pose proof (sort_values_perm BiRow (fun r => game_time (fields r)) flagged)
    as Hperm.
  split.
  { intros Hnil. rewrite Hnil in Hperm.
    apply Permutation_sym, Permutation_nil in Hperm. discriminate. }
  split; [apply sort_values_ordered|].
  split.
  { intros r Hin.
    apply (Permutation_in _ (Permutation_sym Hperm)) in Hin.
    apply in_map_iff in Hin. destruct Hin as (r1 & <- & Hr1).
    rewrite <- Hproj in Hr1. apply project_In in Hr1.
    destruct Hr1 as (row & perspective & _ & _ & Hsub). exact Hsub. }
  exists df. split; [reflexivity|].
  split; [rewrite Hproj; exact Hperm|].
  rewrite <- (Permutation_length Hperm). unfold flagged.
  rewrite length_map, <- Hproj. apply project_length.
Qed.

End ProjectorExtras.

Section SideExtras.

Import Perspective.

(** X15: for a game between two different named players, neither of them
    named [draw], the two perspectives are consistent: when the winner is
    the white player the white row says Win and the black row says Loss,
    when it is the black player the white row says Loss and the black row
    says Win, and when it is [draw] both rows say Draw. *)
Theorem statuses_of_both_sides (row : CsvRow) (white black : string) :
  csv_white_username row = Str white ->
  csv_black_username row = Str black ->
  white <> black -> white <> "draw" -> black <> "draw" ->
  (csv_winner row = Str white ->
   result_status (generate_row row "white") = "Win" /\
   result_status (generate_row row "black") = "Loss") /\
  (csv_winner row = Str black ->
   result_status (generate_row row "white") = "Loss" /\
   result_status (generate_row row "black") = "Win") /\
  (csv_winner row = Str "draw" ->
   result_status (generate_row row "white") = "Draw" /\
   result_status (generate_row row "black") = "Draw").
Proof.
  intros Hw Hb Hdiff Hwd Hbd.
  assert (Hne : String.eqb black white = false).
  { apply String.eqb_neq. congruence. }
  apply String.eqb_neq in Hdiff.
  apply String.eqb_neq in Hwd. apply String.eqb_neq in Hbd.
  unfold generate_row; simpl. rewrite Hw, Hb.
  split; [|split]; intros Hwin; rewrite Hwin; simpl.
  - rewrite Hwd, String.eqb_refl, Hdiff. split; reflexivity.
  - rewrite Hbd, String.eqb_refl, Hne. split; reflexivity.
  - split; reflexivity.
Qed.

(** X16: the difficulty buckets of the two perspectives of a row mirror
    each other: much stronger on one side is much weaker on the other,
    stronger is weaker, and similar is similar. *)
Theorem difficulty_mirrored (row : CsvRow) :
  let white_bucket := difficulty_category (generate_row row "white") in
  let black_bucket := difficulty_category (generate_row row "black") in
  (white_bucket = "Much Stronger (+100+)" <->
   black_bucket = "Much Weaker (-100+)") /\
  (white_bucket = "Stronger (+25 to +99)" <->
   black_bucket = "Weaker (-25 to -99)") /\
  (white_bucket = "Similar (±25)" <-> black_bucket = "Similar (±25)") /\
  (white_bucket = "Weaker (-25 to -99)" <->
   black_bucket = "Stronger (+25 to +99)") /\
  (white_bucket = "Much Weaker (-100+)" <->
   black_bucket = "Much Stronger (+100+)").
Proof.
  simpl. unfold difficulty_bucket.
  set (w := csv_white_rating row). set (b := csv_black_rating row).
  destruct (Z.geb_spec (w - b) 100); destruct (Z.geb_spec (w - b) 25);
    destruct (Z.gtb_spec (w - b) (-25)); destruct (Z.gtb_spec (w - b) (-100));
    try lia;
    destruct (Z.geb_spec (b - w) 100); destruct (Z.geb_spec (b - w) 25);
    destruct (Z.gtb_spec (b - w) (-25)); destruct (Z.gtb_spec (b - w) (-100));
    try lia;
    repeat match goal with
           | |- _ /\ _ => split
           | |- _ <-> _ => split
           end;
    intros Heq; try reflexivity; discriminate Heq.
Qed.

(** X17: projecting two tables one after the other gives the rows of the
    first followed by the rows of the second, and a table none of whose
    rows has a subject gives no row. *)
Theorem project_app (df1 df2 : list CsvRow) (subjects : list string) :
  project (df1 ++ df2) subjects
  = (project df1 subjects ++ project df2 subjects)%list /\
  project df1 [] = [].
Proof.
  split.
  - rewrite !project_rows. apply flat_map_app.
  - rewrite project_rows.
    induction df1 as [|row rest IH]; simpl; [reflexivity|].
    rewrite IH. reflexivity.
Qed.

End SideExtras.

(** X14, on the game of Alice and Bob with both of them tracked. *)
Lemma perspective_table_contract_witness :
  exists out,
    @Perspective.create_perspective_data Sorts.stable_table
      (Some [ProjectorSamples.alice_bob]) (Some ["bob"; "alice"]) = Some out /\
    out <> [] /\
    (forall r, In r out ->
               Perspective.cell_in
                 (Perspective.player_name (Perspective.fields r))
                 ["bob"; "alice"] = true).
Proof.
  destruct (@Perspective.create_perspective_data Sorts.stable_table
              (Some [ProjectorSamples.alice_bob]) (Some ["bob"; "alice"]))
    as [out|] eqn:Hout.
  - exists out. split; [reflexivity|].
    destruct (@perspective_table_contract Sorts.stable_table _ _ _ Hout)
      as (Hne & _ & Hsub & _).
    split; assumption.
  - vm_compute in Hout. discriminate.
Defined.

(** X15, on the game of Alice and Bob, which Alice won. *)
Lemma statuses_of_both_sides_witness :
  Perspective.result_status
    (Perspective.generate_row ProjectorSamples.alice_bob "white") = "Win" /\
  Perspective.result_status
    (Perspective.generate_row ProjectorSamples.alice_bob "black") = "Loss".
Proof.
  assert (Hdiff : "alice" <> "bob") by discriminate.
  assert (Hwd : "alice" <> "draw") by discriminate.
  assert (Hbd : "bob" <> "draw") by discriminate.
  exact (proj1 (statuses_of_both_sides ProjectorSamples.alice_bob
                  "alice" "bob" eq_refl eq_refl Hdiff Hwd Hbd) eq_refl).
Defined.


(* ================================================================== *)
(** ** dashboard.py *)
(* ================================================================== *)

Module Dashboard.

(** A row of the canonical table as the dashboard reads it: the columns
    [generate_row] reads, and the column [rating_diff]. *)
Record GameRow : Type := {
  game : Perspective.CsvRow;
  csv_rating_diff : Z
}.

(** A row of the table [get_player_data] returns: the row it comes from
    and the columns added to it. *)
Record PlayerGame : Type := {
  source : GameRow;
  player_color : string;
  opponent : Cell;
  player_rating : Z;
  result_status : string;
  rating_diff_category : option string
}.

(** [cell == s] *)
Definition cell_is (c : Cell) (s : string) : bool := Perspective.str_eq s c.

(** [categorize_diff], on the colour and the rating difference of a row. *)
Definition categorize_diff (color : string) (rating_diff : Z) : string :=
  let diff := if String.eqb color "white" then rating_diff else - rating_diff in
  if diff >=? 100 then "Higher Rated (+100+)"
  else if diff >=? 25 then "Slightly Higher (+25 to +99)"
  else if diff >? -25 then "Similar Rated (±25)"
  else if diff >? -100 then "Slightly Lower (-25 to -99)"
  else "Lower Rated (-100+)".

(** The mask of [get_player_data]: the player is on one of the sides. *)
Definition involves (username : string) (x : GameRow) : bool :=
  (cell_is (Perspective.csv_white_username (game x)) username
   || cell_is (Perspective.csv_black_username (game x)) username)%bool.

(** The columns [get_player_data] adds to one row.  [has_rating_diff]
    tells whether the table has the column [rating_diff]. *)
Definition player_view (has_rating_diff : bool) (username : string)
    (x : GameRow) : PlayerGame :=
  let color :=
    if cell_is (Perspective.csv_white_username (game x)) username
    then "white" else "black" in
  let other :=
    if String.eqb color "white"
    then Perspective.csv_black_username (game x)
    else Perspective.csv_white_username (game x) in
  let elo :=
    if String.eqb color "white"
    then Perspective.csv_white_rating (game x)
    else Perspective.csv_black_rating (game x) in
  let status :=
    if cell_is (Perspective.csv_winner (game x)) username then "Win"
    else if cell_is (Perspective.csv_winner (game x)) "draw" then "Draw"
    else "Loss" in
  {| source := x;
     player_color := color;
     opponent := other;
     player_rating := elo;
     result_status := status;
     rating_diff_category :=
       if has_rating_diff
       then Some (categorize_diff color (csv_rating_diff x))
       else None |}.

(** [get_player_data] *)
Definition get_player_data (has_rating_diff : bool) (df : list GameRow)
    (username : string) : list PlayerGame :=
  match filter (involves username) df with
  | [] => []
  | user_games => map (player_view has_rating_diff username) user_games
  end.

(** [len(df[df['result_status'] == label])] *)
Definition count_status (label : string) (df : list PlayerGame) : nat :=
  List.length (filter (fun v => String.eqb (result_status v) label) df).

(** The dashboard's name for a difficulty bucket of the projector. *)
Definition dashboard_label (bucket : string) : string :=
  if String.eqb bucket "Much Stronger (+100+)" then "Higher Rated (+100+)"
  else if String.eqb bucket "Stronger (+25 to +99)"
       then "Slightly Higher (+25 to +99)"
  else if String.eqb bucket "Similar (±25)" then "Similar Rated (±25)"
  else if String.eqb bucket "Weaker (-25 to -99)"
       then "Slightly Lower (-25 to -99)"
  else "Lower Rated (-100+)".

End Dashboard.

Module DashboardSamples.

(** The game of Alice and Bob with its rating difference. *)
Definition alice_bob : Dashboard.GameRow :=
  {| Dashboard.game := ProjectorSamples.alice_bob;
     Dashboard.csv_rating_diff := 100 |}.

End DashboardSamples.

Section DashboardExtras.

Import Dashboard.

Lemma get_player_data_In (has_rating_diff : bool) (df : list GameRow)
    (username : string) (v : PlayerGame) :
  In v (get_player_data has_rating_diff df username) <->
  exists x, In x df /\ involves username x = true /\
            v = player_view has_rating_diff username x.
Proof.
  unfold get_player_data.
  assert (Hmap : In v (map (player_view has_rating_diff username)
                           (filter (involves username) df)) <->
                 exists x, In x df /\ involves username x = true /\
                           v = player_view has_rating_diff username x).
  { rewrite in_map_iff. split.
    - intros (x & <- & Hx). apply filter_In in Hx. destruct Hx as [Hin Hinv].
      now exists x.
    - intros (x & Hin & Hinv & ->). exists x. split; [reflexivity|].
      now apply filter_In. }
  destruct (filter (involves username) df) as [|x0 rest]; exact Hmap.
Qed.

Lemma player_view_status (has_rating_diff : bool) (username : string)
    (x : GameRow) :
  let v := player_view has_rating_diff username x in
  result_status v = "Win" \/ result_status v = "Draw" \/
  result_status v = "Loss".
Proof.
  simpl.
  destruct (cell_is (Perspective.csv_winner (game x)) username); [now left|].
  destruct (cell_is (Perspective.csv_winner (game x)) "draw");
    [now right; left | now right; right].
Qed.

(** X18: the dashboard and the projector agree.  For a player whose name
    is neither [draw] nor [nan], every row of [get_player_data] has the
    colour white or black, and the opponent, the player rating and the
    result status of the row [generate_row] builds for that colour; when
    the column [rating_diff] holds the white rating minus the black
    rating, its category is the dashboard's name for the difficulty bucket
    of that row. *)
Theorem dashboard_agrees_with_projector (has_rating_diff : bool)
    (df : list GameRow) (username : string) (v : PlayerGame) :
  In v (get_player_data has_rating_diff df username) ->
  username <> "draw" -> username <> "nan" ->
  let r := Perspective.generate_row (game (source v)) (player_color v) in
  (player_color v = "white" \/ player_color v = "black") /\
  Perspective.player_name r = Str username /\
  opponent v = Perspective.opponent_name r /\
  player_rating v = Perspective.player_rating r /\
  result_status v = Perspective.result_status r /\
  (has_rating_diff = true ->
   csv_rating_diff (source v)
   = Perspective.csv_white_rating (game (source v))
     - Perspective.csv_black_rating (game (source v)) ->
   rating_diff_category v
   = Some (dashboard_label (Perspective.difficulty_category r))).
Proof.
  intros Hin Hdraw Hnan.
  apply get_player_data_In in Hin. destruct Hin as (x & _ & Hinv & ->).
  assert (Hstatus : forall player,
             player = Str username ->
             (if cell_is (Perspective.csv_winner (game x)) username then "Win"
              else if cell_is (Perspective.csv_winner (game x)) "draw"
                   then "Draw" else "Loss")
             = (if String.eqb (Perspective.py_str
                                 (Perspective.csv_winner (game x))) "draw"
                then "Draw"
                else if Perspective.str_eq
                          (Perspective.py_str
                             (Perspective.csv_winner (game x))) player
                     then "Win" else "Loss")).
  { intros player ->. unfold cell_is.
    destruct (Perspective.csv_winner (game x)) as [|w];
      cbn [Perspective.py_str Perspective.str_eq].
    - change (String.eqb "nan" "draw") with false. cbn iota.
      destruct (String.eqb_spec "nan" username) as [Heq|_];
        [now contradiction Hnan | reflexivity].
    - rewrite (String.eqb_sym username w), (String.eqb_sym "draw" w).
      destruct (String.eqb_spec w "draw") as [->|Hwd].
      + destruct (String.eqb_spec "draw" username) as [Heq|_];
          [now contradiction Hdraw | reflexivity].
      + reflexivity. }
  assert (Hbucket : forall d : Z,
             dashboard_label (Perspective.difficulty_bucket d)
             = (if d >=? 100 then "Higher Rated (+100+)"
                else if d >=? 25 then "Slightly Higher (+25 to +99)"
                else if d >? -25 then "Similar Rated (±25)"
                else if d >? -100 then "Slightly Lower (-25 to -99)"
                else "Lower Rated (-100+)")).
  { intros d. unfold Perspective.difficulty_bucket.
    destruct (d >=? 100); [reflexivity|].
    destruct (d >=? 25); [reflexivity|].
    destruct (d >? -25); [reflexivity|].
    destruct (d >? -100); reflexivity. }
  unfold involves in Hinv. unfold player_view. cbn [source player_color
    opponent player_rating result_status rating_diff_category].
  destruct (cell_is (Perspective.csv_white_username (game x)) username)
    eqn:Hw.
  - assert (Hplayer : Perspective.csv_white_username (game x) = Str username).
    { unfold cell_is in Hw.
      destruct (Perspective.csv_white_username (game x)) as [|w];
        [discriminate|].
      simpl in Hw. apply String.eqb_eq in Hw. now subst. }
    simpl. rewrite Hplayer.
    repeat split; try (now left); try reflexivity.
    + now apply Hstatus.
    + intros -> Hrd. rewrite Hrd, Hbucket. reflexivity.
  - simpl in Hinv.
    assert (Hplayer : Perspective.csv_black_username (game x) = Str username).
    { unfold cell_is in Hinv.
      destruct (Perspective.csv_black_username (game x)) as [|b];
        [discriminate|].
      simpl in Hinv. apply String.eqb_eq in Hinv. now subst. }
    simpl. rewrite Hplayer.
    repeat split; try (now right); try reflexivity.
    + now apply Hstatus.
    + intros -> Hrd. rewrite Hrd, Hbucket. unfold categorize_diff. simpl.
      replace (- (Perspective.csv_white_rating (game x)
                  - Perspective.csv_black_rating (game x)))
        with (Perspective.csv_black_rating (game x)
              - Perspective.csv_white_rating (game x)) by lia.
      reflexivity.
Qed.

(** X19: [get_player_data] returns one row for each game of the table
    that has the player on a side, in the order of the table, and in any
    selection of these rows the numbers of rows with the status Win, Draw
    and Loss add up to the number of rows. *)
Theorem dashboard_counts (has_rating_diff : bool) (df : list GameRow)
    (username : string) :
  let out := get_player_data has_rating_diff df username in
  map source out = filter (involves username) df /\
  (List.length out <= List.length df)%nat /\
  (forall shown,
      incl shown out ->
      (count_status "Win" shown + count_status "Draw" shown
       + count_status "Loss" shown = List.length shown)%nat).
Proof.
  intros out.
  assert (Hsrc : map source out = filter (involves username) df).
  { unfold out, get_player_data.
    destruct (filter (involves username) df) as [|x0 rest] eqn:Hf;
      [reflexivity|].
    rewrite map_map. simpl. f_equal. apply map_id. }
  split; [exact Hsrc|]. split.
  - rewrite <- (length_map source out), Hsrc. apply filter_length_le.
  - intros shown Hincl. unfold count_status.
    induction shown as [|v rest IH]; [reflexivity|].
    assert (Hv : In v out) by (apply Hincl; now left).
    apply get_player_data_In in Hv. destruct Hv as (x & _ & _ & ->).
    assert (Hrest : incl rest out).
    { intros w Hw. apply Hincl. now right. }
    specialize (IH Hrest). simpl.
    destruct (player_view_status has_rating_diff username x)
      as [Hs|[Hs|Hs]]; simpl in Hs; rewrite Hs; simpl; lia.
Qed.

End DashboardExtras.

(** X18, on the game of Alice and Bob seen by Bob. *)
Lemma dashboard_agrees_with_projector_witness :
  exists v,
    In v (Dashboard.get_player_data true [DashboardSamples.alice_bob] "bob") /\
    Dashboard.player_color v = "black" /\
    Dashboard.result_status v
    = Perspective.result_status
        (Perspective.generate_row (Dashboard.game (Dashboard.source v))
                                  (Dashboard.player_color v)).
Proof.
  eexists. split; [left; reflexivity|].
  split; [reflexivity|].
  assert (Hdraw : "bob" <> "draw") by discriminate.
  assert (Hnan : "bob" <> "nan") by discriminate.
  apply (dashboard_agrees_with_projector true [DashboardSamples.alice_bob]
           "bob" _ (or_introl eq_refl) Hdraw Hnan).
Defined.


(* ================================================================== *)
(** ** chess_fetch.py and the file listing of utils.py *)
(* ================================================================== *)

(** *** More string operations *)

Module PyText.

(** [s.lstrip(c)] for a single character [c]. *)
Fixpoint lstrip_char (c : ascii) (s : string) : string :=
  match s with
  | EmptyString => EmptyString
  | String a rest => if Ascii.eqb a c then lstrip_char c rest else s
  end.

(** [s.rstrip(c)] for a single character [c]. *)
Fixpoint rstrip_char (c : ascii) (s : string) : string :=
  match s with
  | EmptyString => EmptyString
  | String a rest =>
      match rstrip_char c rest with
      | EmptyString => if Ascii.eqb a c then EmptyString
                       else String a EmptyString
      | kept => String a kept
      end
  end.

(** [s.strip(c)] for a single character [c]. *)
Definition strip_char (c : ascii) (s : string) : string :=
  rstrip_char c (lstrip_char c s).

(** [s.endswith(suffix)] *)
Fixpoint endswith (suffix s : string) : bool :=
  (String.eqb s suffix ||
   match s with
   | EmptyString => false
   | String _ rest => endswith suffix rest
   end)%bool.

(** [os.path.join(a, b)] on POSIX paths. *)
Definition path_join (a b : string) : string :=
  if PyStr.startswith "/" b then b
  else if (negb (PyStr.truthy a) || endswith "/" a)%bool then a ++ b
  else a ++ "/" ++ b.

(** The pieces of [s] between the occurrences of the character [c]. *)
Fixpoint split_char (c : ascii) (s : string) : list string :=
  match s with
  | EmptyString => [EmptyString]
  | String a rest =>
      if Ascii.eqb c a then EmptyString :: split_char c rest
      else match split_char c rest with
           | piece :: pieces => String a piece :: pieces
           | [] => [String a EmptyString]
           end
  end.

(** [c] does not occur in [s]. *)
Fixpoint free_of (c : ascii) (s : string) : bool :=
  match s with
  | EmptyString => true
  | String a rest => (negb (Ascii.eqb c a) && free_of c rest)%bool
  end.

End PyText.

Example strip_slashes :
  PyText.strip_char "/" "/pub/player/hikaru/games/2024/01/"
  = "pub/player/hikaru/games/2024/01".
Proof. reflexivity. Qed.

Example join_paths : PyText.path_join "data/raw" "hikaru_2024_01.json"
                     = "data/raw/hikaru_2024_01.json".
Proof. reflexivity. Qed.

(** *** utils.py: the listing of the raw files *)

(** [list_json_files], on what the file system answers for the directory:
    [None] when it does not exist, the outcome of [os.listdir]
    otherwise. *)
Definition list_json_files (listing : option (PyResult (list string)))
    (directory : string) : list string :=
  match listing with
  | None => []
  | Some (Raise _) => []
  | Some (Ok filenames) =>
      fold_left
        (fun json_files filename =>
           if PyText.endswith ".json" (PyStr.lower filename)
           then (json_files ++ [PyText.path_join directory filename])%list
           else json_files)
        filenames []
  end.

(** *** chess_fetch.py: file names *)

Section ArchiveNames.

(** [urlparse(url).path] *)
Variable urlparse_path : string -> PyResult string.

(** [datetime.now()], as the pair of [str(now.year)] and the month
    rendered on two digits. *)
Variable now : string * string.

(** The last two elements of a list, when it has two. *)
Definition last_two (parts : list string) : option (string * string) :=
  match rev parts with
  | month :: yr :: _ => Some (yr, month)
  | _ => None
  end.

(** [ChessFetcher.extract_date_from_url] *)
Definition extract_date_from_url (archive_url : string) : string * string :=
  match urlparse_path archive_url with
  | Ok path =>
      match last_two (PyStr.split "/" (PyText.strip_char "/" path)) with
      | Some date => date
      | None => now
      end
  | Raise _ => now
  end.

(** [ChessFetcher.get_archive_filename] *)
Definition get_archive_filename (username archive_url : string) : string :=
  let '(yr, month) := extract_date_from_url archive_url in
  username ++ "_" ++ yr ++ "_" ++ month ++ ".json".

End ArchiveNames.

(** *** Facts on the string operations *)

Lemma string_app_empty (s : string) : s ++ "" = s.
Proof. induction s as [|x s IH]; simpl; congruence. Qed.

Lemma string_app_char (s : string) (a : ascii) (t : string) :
  (s ++ String a EmptyString) ++ t = s ++ String a t.
Proof. induction s as [|x s IH]; simpl; congruence. Qed.

Lemma split_char_nonempty (c : ascii) (s : string) :
  PyText.split_char c s <> [].
Proof.
  destruct s as [|a rest]; simpl; [discriminate|].
  destruct (Ascii.eqb c a); [discriminate|].
  destruct (PyText.split_char c rest); discriminate.
Qed.

Lemma split_aux_char (c : ascii) (s : string) :
  forall cur : string,
    PyStr.split_aux (String c EmptyString) s cur O
    = (cur ++ hd "" (PyText.split_char c s)) :: tl (PyText.split_char c s).
Proof.
  induction s as [|a rest IH]; intros cur.
  - simpl. now rewrite string_app_empty.
  - pose proof (split_char_nonempty c rest) as Hne.
    cbn [PyStr.split_aux PyStr.startswith PyText.split_char String.length
         Nat.sub].
    rewrite andb_true_r.
    destruct (Ascii.eqb c a) eqn:Hc.
    + rewrite IH. cbn [hd tl]. rewrite string_app_empty.
      destruct (PyText.split_char c rest) as [|piece pieces];
        [contradiction | reflexivity].
    + rewrite IH.
      destruct (PyText.split_char c rest) as [|piece pieces];
        [contradiction|].
      cbn [hd tl]. now rewrite string_app_char.
Qed.

Lemma split_is_split_char (c : ascii) (s : string) :
  PyStr.split (String c EmptyString) s = PyText.split_char c s.
Proof.
  unfold PyStr.split. rewrite split_aux_char.
  pose proof (split_char_nonempty c s) as Hne.
  destruct (PyText.split_char c s) as [|piece pieces];
    [contradiction | reflexivity].
Qed.

Lemma split_char_free (c : ascii) (s : string) :
  PyText.free_of c s = true -> PyText.split_char c s = [s].
Proof.
  induction s as [|a rest IH]; simpl; [reflexivity|].
  intros H. apply andb_true_iff in H. destruct H as [Ha Hrest].
  apply negb_true_iff in Ha. rewrite Ha, (IH Hrest). reflexivity.
Qed.

Lemma split_char_app (c : ascii) (a b : string) :
  PyText.split_char c (a ++ String c b)
  = (PyText.split_char c a ++ PyText.split_char c b)%list.
Proof.
  induction a as [|x a IH]; simpl.
  - rewrite Ascii.eqb_refl. reflexivity.
  - rewrite IH. destruct (Ascii.eqb c x); [reflexivity|].
    pose proof (split_char_nonempty c a) as Hne.
    destruct (PyText.split_char c a) as [|piece pieces];
      [contradiction | reflexivity].
Qed.

Lemma endswith_refl (suffix : string) : PyText.endswith suffix suffix = true.
Proof.
  destruct suffix; simpl; [reflexivity|].
  now rewrite Ascii.eqb_refl, String.eqb_refl.
Qed.

Lemma endswith_app (suffix a b : string) :
  PyText.endswith suffix b = true -> PyText.endswith suffix (a ++ b) = true.
Proof.
  intros Hb. induction a as [|x a IH]; simpl; [exact Hb|].
  rewrite IH. apply orb_true_r.
Qed.

Lemma lower_app (a b : string) :
  PyStr.lower (a ++ b) = PyStr.lower a ++ PyStr.lower b.
Proof.
  induction a as [|x a IH]; simpl; congruence.
Qed.

Lemma fold_json_files (directory : string) (filenames : list string) :
  forall json_files : list string,
    fold_left
      (fun json_files filename =>
         if PyText.endswith ".json" (PyStr.lower filename)
         then (json_files ++ [PyText.path_join directory filename])%list
         else json_files)
      filenames json_files
    = (json_files ++
       map (PyText.path_join directory)
           (filter (fun filename =>
                      PyText.endswith ".json" (PyStr.lower filename))
                   filenames))%list.
Proof.
  induction filenames as [|filename rest IH]; intros json_files; simpl.
  - now rewrite app_nil_r.
  - rewrite IH.
    destruct (PyText.endswith ".json" (PyStr.lower filename)); simpl;
      [now rewrite <- app_assoc | reflexivity].
Qed.

Section ArchiveNameExtras.

Variable urlparse_path : string -> PyResult string.
Variable now : string * string.

(** X20: when the path of an archive address, stripped of its outer
    slashes, ends with two components [yr] and [month] after a slash,
    [extract_date_from_url] returns them and the file name is the
    username, the year and the month joined by underscores, with the
    extension [.json]. *)
Theorem archive_date_is_last_two_components
    (username archive_url path front yr month : string) :
  urlparse_path archive_url = Ok path ->
  PyText.strip_char "/" path = front ++ "/" ++ yr ++ "/" ++ month ->
  PyText.free_of "/" yr = true ->
  PyText.free_of "/" month = true ->
  extract_date_from_url urlparse_path now archive_url = (yr, month) /\
  get_archive_filename urlparse_path now username archive_url
  = username ++ "_" ++ yr ++ "_" ++ month ++ ".json".
Proof.
  intros Hpath Hstrip Hyr Hmonth.
  assert (Hdate : extract_date_from_url urlparse_path now archive_url
                  = (yr, month)).
  { unfold extract_date_from_url. rewrite Hpath, Hstrip.
    rewrite split_is_split_char.
    change (front ++ "/" ++ yr ++ "/" ++ month)
      with (front ++ String "/" (yr ++ String "/" month)).
    rewrite !split_char_app.
    rewrite (split_char_free "/" yr Hyr), (split_char_free "/" month Hmonth).
    unfold last_two. rewrite rev_app_distr. reflexivity. }
  split; [exact Hdate|].
  unfold get_archive_filename. rewrite Hdate. reflexivity.
Qed.

(** X21: [list_json_files] returns nothing when the directory does not
    exist or cannot be listed; otherwise it returns, in listing order, the
    paths of exactly the names that end with [.json] whatever their case.
    Every name [get_archive_filename] makes is such a name, so a file the
    fetcher saved is listed whenever it is in the directory. *)
Theorem saved_archives_are_listed (directory : string)
    (filenames : list string) :
  list_json_files None directory = [] /\
  (forall e, list_json_files (Some (Raise e)) directory = []) /\
  list_json_files (Some (Ok filenames)) directory
  = map (PyText.path_join directory)
        (filter (fun filename => PyText.endswith ".json" (PyStr.lower filename))
                filenames) /\
  (forall username archive_url,
      In (get_archive_filename urlparse_path now username archive_url)
         filenames ->
      In (PyText.path_join directory
            (get_archive_filename urlparse_path now username archive_url))
         (list_json_files (Some (Ok filenames)) directory)).
Proof.
  assert (Hlist : list_json_files (Some (Ok filenames)) directory
                  = map (PyText.path_join directory)
                        (filter (fun filename =>
                                   PyText.endswith ".json"
                                     (PyStr.lower filename)) filenames)).
  { unfold list_json_files. now rewrite fold_json_files. }
  repeat split; try reflexivity; try exact Hlist.
  intros username archive_url Hin. rewrite Hlist.
  apply in_map, filter_In. split; [exact Hin|].
  unfold get_archive_filename.
  destruct (extract_date_from_url urlparse_path now archive_url)
    as [yr month].
  rewrite !lower_app.
  repeat apply endswith_app. apply endswith_refl.
Qed.

End ArchiveNameExtras.

Module FetchSamples.

(** An address parser for the addresses of the archive service: the part
    after the host name. *)
Definition path_after_host (url : string) : PyResult string :=
  if PyStr.startswith "https://api.chess.com" url
  then Ok (PyStr.join "https://api.chess.com"
             (tl (PyStr.split "https://api.chess.com" url)))
  else Raise ValueError.

Definition january : string :=
  "https://api.chess.com/pub/player/hikaru/games/2024/01".

Definition today : string * string := ("2026", "11").

End FetchSamples.

(** X20, on a monthly archive of the service. *)
Lemma archive_date_is_last_two_components_witness :
  get_archive_filename FetchSamples.path_after_host FetchSamples.today
    "hikaru" FetchSamples.january
  = "hikaru_2024_01.json".
Proof.
  apply (archive_date_is_last_two_components FetchSamples.path_after_host
           FetchSamples.today "hikaru" FetchSamples.january
           "/pub/player/hikaru/games/2024/01" "pub/player/hikaru/games"
           "2024" "01"); reflexivity.
Defined.


(** *** chess_fetch.py: downloads *)

(** The state the fetcher acts on: the files of the data directory with
    their content ([None] = not readable as JSON), in listing order; the
    addresses requested so far; and the number of pauses made. *)
Record World : Type := {
  files : list (string * option ArchiveFile);
  requested : list string;
  pauses : nat
}.

(** The dictionary [stats] of [fetch_user_games]. *)
Record Stats : Type := {
  archives_found : Z;
  archives_downloaded : Z;
  archives_skipped : Z;
  total_games : Z
}.

(** [os.path.exists(filepath)] *)
Definition file_exists (filename : string) (w : World) : bool :=
  existsb (fun entry => String.eqb (fst entry) filename) (files w).

Definition request (url : string) (w : World) : World :=
  {| files := files w;
     requested := (requested w ++ [url])%list;
     pauses := pauses w |}.

Definition write_file (filename : string) (data : ArchiveFile) (w : World)
  : World :=
  {| files := (files w ++ [(filename, Some data)])%list;
     requested := requested w;
     pauses := pauses w |}.

(** [time.sleep(delay)] *)
Definition pause (w : World) : World :=
  {| files := files w;
     requested := requested w;
     pauses := S (pauses w) |}.

(** Truthiness of an optional year. *)
Definition year_given (bound : option Z) : bool :=
  match bound with
  | Some y => negb (y =? 0)
  | None => false
  end.

(** [start_year and year < start_year] *)
Definition before_start (start_year : option Z) (y : Z) : bool :=
  (year_given start_year && (y <? PyStr.get start_year 0))%bool.

(** [end_year and year > end_year] *)
Definition after_end (end_year : option Z) (y : Z) : bool :=
  (year_given end_year && (y >? PyStr.get end_year 0))%bool.

Section Fetcher.

Variable urlparse_path : string -> PyResult string.
Variable now : string * string.

(** The entry [archives] of the answer to the request of a player's
    archive list ([Raise]: the request or its decoding failed). *)
Variable archives_response : string -> PyResult (option (list string)).

(** The answer to the request of one monthly archive. *)
Variable archive_response : string -> PyResult ArchiveFile.

(** [save_json_safely], as whether the file of that name can be
    written. *)
Variable save_json_safely : string -> bool.

(** [ChessFetcher.get_user_archives] *)
Definition get_user_archives (username : string) (w : World)
  : list string * World :=
  let url := "https://api.chess.com/pub/player/" ++ username
             ++ "/games/archives" in
  let w := request url w in
  match archives_response url with
  | Ok entry => (PyStr.get entry [], w)
  | Raise _ => ([], w)
  end.

(** [ChessFetcher.download_archive] *)
Definition download_archive (username archive_url : string) (w : World)
  : bool * World :=
  let filename := get_archive_filename urlparse_path now username archive_url in
  if file_exists filename w then (true, w)
  else
    let w := request archive_url w in
    match archive_response archive_url with
    | Raise _ => (false, w)
    | Ok data =>
        if save_json_safely filename
        then (true, write_file filename data w)
        else (false, w)
    end.

(** The loop of [fetch_user_games] that keeps the archives of the years
    asked for; [int(year_str)] may raise. *)
Fixpoint filter_archives (start_year end_year : option Z)
    (archives filtered_archives : list string) : PyResult (list string) :=
  match archives with
  | [] => Ok filtered_archives
  | arch :: rest =>
      y <- PyStr.int (fst (extract_date_from_url urlparse_path now arch)) ;;
      if before_start start_year y
      then filter_archives start_year end_year rest filtered_archives
      else if after_end end_year y
      then filter_archives start_year end_year rest filtered_archives
      else filter_archives start_year end_year rest
                           (filtered_archives ++ [arch])%list
  end.

(** The loop of [fetch_user_games] that downloads the archives, with a
    pause after each but the last. *)
Fixpoint download_all (username : string) (remaining : list string)
    (stats : Stats) (w : World) : Stats * World :=
  match remaining with
  | [] => (stats, w)
  | archive_url :: rest =>
      let '(success, w) := download_archive username archive_url w in
      let stats :=
        if success
        then {| archives_found := archives_found stats;
                archives_downloaded := archives_downloaded stats + 1;
                archives_skipped := archives_skipped stats;
                total_games := total_games stats |}
        else {| archives_found := archives_found stats;
                archives_downloaded := archives_downloaded stats;
                archives_skipped := archives_skipped stats + 1;
                total_games := total_games stats |} in
      let w := match rest with
               | [] => w
               | _ :: _ => pause w
               end in
      download_all username rest stats w
  end.

(** The loop of [fetch_user_games] that counts the games of the player's
    files; it stops at the first file whose year or content cannot be
    read. *)
Fixpoint count_games (username : string) (start_year end_year : option Z)
    (entries : list (string * option ArchiveFile)) (total : Z) : Z :=
  match entries with
  | [] => total
  | (filename, content) :: rest =>
      if (PyStr.startswith (username ++ "_") filename
          && PyText.endswith ".json" filename)%bool
      then
        let parts := PyStr.split "_" filename in
        let in_range :=
          if (2 <=? List.length parts)%nat
          then file_year <- PyStr.int (nth 1 parts "") ;;
               Ok (negb (before_start start_year file_year
                         || after_end end_year file_year))
          else Ok true in
        match in_range with
        | Raise _ => total
        | Ok false => count_games username start_year end_year rest total
        | Ok true =>
            match content with
            | None => total
            | Some data =>
                count_games username start_year end_year rest
                  (total + Z.of_nat (List.length (PyStr.get (games data) [])))
            end
        end
      else count_games username start_year end_year rest total
  end.

(** [ChessFetcher.fetch_user_games]: the statistics, or the exception of
    the year filter, and the state it leaves. *)
Definition fetch_user_games (username : string)
    (start_year end_year : option Z) (w : World) : PyResult Stats * World :=
  let stats := {| archives_found := 0; archives_downloaded := 0;
                  archives_skipped := 0; total_games := 0 |} in
  let '(archives, w) := get_user_archives username w in
  match filter_archives start_year end_year archives [] with
  | Raise e => (Raise e, w)
  | Ok filtered_archives =>
      let stats :=
        {| archives_found := Z.of_nat (List.length filtered_archives);
           archives_downloaded := archives_downloaded stats;
           archives_skipped := archives_skipped stats;
           total_games := total_games stats |} in
      match filtered_archives with
      | [] => (Ok stats, w)
      | _ :: _ =>
          let '(stats, w) := download_all username filtered_archives stats w in
          (Ok {| archives_found := archives_found stats;
                 archives_downloaded := archives_downloaded stats;
                 archives_skipped := archives_skipped stats;
                 total_games :=
                   count_games username start_year end_year (files w)
                               (total_games stats) |},
           w)
      end
  end.

End Fetcher.

Section FetcherExtras.

Variable urlparse_path : string -> PyResult string.
Variable now : string * string.
Variable archives_response : string -> PyResult (option (list string)).
Variable archive_response : string -> PyResult ArchiveFile.
Variable save_json_safely : string -> bool.

(** The file name of an archive. *)
Let filename_of (username url : string) : string :=
  get_archive_filename urlparse_path now username url.

(** The address of a player's archive list. *)
Definition archive_list_url (username : string) : string :=
  "https://api.chess.com/pub/player/" ++ username ++ "/games/archives".

Lemma file_exists_app (filename : string) (w : World)
    (added : list (string * option ArchiveFile)) (w' : World) :
  files w' = (files w ++ added)%list ->
  file_exists filename w' = false -> file_exists filename w = false.
Proof.
  unfold file_exists. intros -> H. rewrite existsb_app in H.
  now apply orb_false_iff in H.
Qed.

Lemma file_exists_names (filename : string) (w : World) :
  file_exists filename w = false -> ~ In filename (map fst (files w)).
Proof.
  unfold file_exists. intros H Hin.
  apply in_map_iff in Hin. destruct Hin as (entry & Heq & Hentry).
  assert (Ht : existsb (fun e => String.eqb (fst e) filename) (files w) = true).
  { apply existsb_exists. exists entry. split; [assumption|].
    rewrite Heq. apply String.eqb_refl. }
  congruence.
Qed.

(** What one call of [download_archive] does to the state. *)
Lemma download_archive_effect (username archive_url : string) (w : World) :
  forall success w',
    download_archive urlparse_path now archive_response save_json_safely
                     username archive_url w = (success, w') ->
    pauses w' = pauses w /\
    ((files w' = files w /\ requested w' = requested w /\
      file_exists (filename_of username archive_url) w = true /\
      success = true) \/
     (requested w' = (requested w ++ [archive_url])%list /\
      file_exists (filename_of username archive_url) w = false /\
      ((files w' = files w /\ success = false) \/
       (exists data,
           archive_response archive_url = Ok data /\
           save_json_safely (filename_of username archive_url) = true /\
           files w'
           = (files w ++ [(filename_of username archive_url, Some data)])%list
           /\ success = true)))).
Proof.
  intros success w'. unfold download_archive, filename_of.
  destruct (file_exists
              (get_archive_filename urlparse_path now username archive_url) w)
    eqn:Hex.
  - intros H. injection H as <- <-. split; [reflexivity|]. left.
    repeat split.
  - destruct (archive_response archive_url) as [data|e] eqn:Hresp.
    + destruct (save_json_safely
                  (get_archive_filename urlparse_path now username archive_url))
        eqn:Hs;
        intros H; injection H as <- <-; (split; [reflexivity|]); right;
        (split; [reflexivity|]); (split; [reflexivity|]).
      * right. exists data. repeat split.
      * left. split; reflexivity.
    + intros H. injection H as <- <-. split; [reflexivity|]. right.
      split; [reflexivity|]. split; [reflexivity|]. left. split; reflexivity.
Qed.

(** The files and requests a run of the download loop adds: every added
    file is an answer saved under the name of its archive, a name that
    was not in the directory; every request is for an archive whose file
    was not in the directory. *)
Definition added_by (username : string) (w w' : World) : Prop :=
  exists added urls,
    files w' = (files w ++ added)%list /\
    requested w' = (requested w ++ urls)%list /\
    (forall name content,
        In (name, content) added ->
        file_exists name w = false /\
        exists url data,
          In url urls /\ name = filename_of username url /\
          archive_response url = Ok data /\ content = Some data /\
          save_json_safely name = true) /\
    (forall url, In url urls ->
                 file_exists (filename_of username url) w = false) /\
    (NoDup (map fst (files w)) -> NoDup (map fst (files w'))).

Lemma added_by_refl (username : string) (w : World) : added_by username w w.
Proof.
  exists [], []. rewrite !app_nil_r.
  split; [reflexivity|]. split; [reflexivity|].
  split; [intros name content []|].
  split; [intros url [] | intros Hnd; exact Hnd].
Qed.

Lemma added_by_pause (username : string) (w w' : World) :
  added_by username w w' -> added_by username w (pause w').
Proof. intros H. exact H. Qed.

Lemma added_by_step (username archive_url : string) (w w1 w2 : World)
    (success : bool) :
  added_by username w w1 ->
  download_archive urlparse_path now archive_response save_json_safely
                   username archive_url w1 = (success, w2) ->
  added_by username w w2.
Proof.
  intros (added & urls & Hf & Hr & Hadded & Hurls & Hnd) Hstep.
  apply download_archive_effect in Hstep.
  destruct Hstep as [_ [(Hf2 & Hr2 & _ & _) | (Hr2 & Hex & Hcase)]].
  - exists added, urls. rewrite Hf2, Hr2.
    split; [assumption|]. split; [assumption|]. split; [assumption|].
    split; assumption.
  - assert (Hex0 : file_exists (filename_of username archive_url) w = false).
    { eapply file_exists_app; eassumption. }
    destruct Hcase as [(Hf2 & _) | (data & Hresp & Hsave & Hf2 & _)].
    + exists added, (urls ++ [archive_url])%list.
      rewrite Hf2, Hr2, Hr, <- app_assoc.
      split; [assumption|]. split; [reflexivity|]. split; [|split].
      * intros name content Hin.
        destruct (Hadded name content Hin)
          as (Hno & url & d & Hu & Hn & Hd & Hc & Hs).
        split; [assumption|]. exists url, d.
        repeat split; try assumption. apply in_or_app. now left.
      * intros url Hin. apply in_app_or in Hin.
        destruct Hin as [Hin | [<- | []]]; [now apply Hurls | assumption].
      * assumption.
    + exists (added ++ [(filename_of username archive_url, Some data)])%list,
             (urls ++ [archive_url])%list.
      rewrite Hf2, Hr2, Hf, Hr, <- !app_assoc.
      split; [reflexivity|]. split; [reflexivity|]. split; [|split].
      * intros name content Hin. apply in_app_or in Hin.
        destruct Hin as [Hin | [Heq | []]].
        -- destruct (Hadded name content Hin)
             as (Hno & url & d & Hu & Hn & Hd & Hc & Hs).
           split; [assumption|]. exists url, d.
           repeat split; try assumption. apply in_or_app. now left.
        -- injection Heq as <- <-. split; [assumption|].
           exists archive_url, data. repeat split; try assumption.
           apply in_or_app. right. now left.
      * intros url Hin. apply in_app_or in Hin.
        destruct Hin as [Hin | [<- | []]]; [now apply Hurls | assumption].
      * intros Hnd0. specialize (Hnd Hnd0).
        rewrite app_assoc, <- Hf, map_app. simpl.
        apply NoDup_app; [assumption | | ].
        -- constructor; [intros [] | constructor].
        -- intros name Hin1 [<- | []].
           apply file_exists_names in Hex. contradiction.
Qed.

Ltac split_conj := repeat match goal with |- _ /\ _ => split end.

(** What a run of the download loop does to the statistics and the
    state. *)
Lemma download_all_effect (username : string) (remaining : list string) :
  forall (stats : Stats) (w0 w : World) stats' w',
    added_by username w0 w ->
    download_all urlparse_path now archive_response save_json_safely
                 username remaining stats w = (stats', w') ->
    archives_found stats' = archives_found stats /\
    total_games stats' = total_games stats /\
    archives_downloaded stats' + archives_skipped stats'
    = archives_downloaded stats + archives_skipped stats
      + Z.of_nat (List.length remaining) /\
    archives_downloaded stats <= archives_downloaded stats' /\
    archives_skipped stats <= archives_skipped stats' /\
    pauses w' = (pauses w + Nat.pred (List.length remaining))%nat /\
    added_by username w0 w'.
Proof.
  induction remaining as [|archive_url rest IH];
    intros stats w0 w stats' w' Hadd Hrun.
  - simpl in Hrun. injection Hrun as <- <-.
    split_conj; cbn [List.length Nat.pred]; try lia; try assumption.
  - cbn [download_all] in Hrun.
    destruct (download_archive urlparse_path now archive_response
                save_json_safely username archive_url w)
      as [success w1] eqn:Hstep.
    pose proof (added_by_step username archive_url w0 w w1 success Hadd Hstep)
      as Hadd1.
    apply download_archive_effect in Hstep. destruct Hstep as [Hp _].
    destruct rest as [|next rest'].
    + apply (IH _ w0) in Hrun; [|assumption].
      destruct Hrun as (Hf & Ht & Hsum & Hd & Hs & Hpa & Hadd').
      destruct success;
        cbn [archives_found archives_downloaded archives_skipped
             total_games List.length Nat.pred] in *;
        (split_conj; try assumption; lia).
    + apply (IH _ w0) in Hrun; [|now apply added_by_pause].
      destruct Hrun as (Hf & Ht & Hsum & Hd & Hs & Hpa & Hadd').
      destruct success;
        cbn [archives_found archives_downloaded archives_skipped
             total_games pause pauses List.length Nat.pred] in *;
        (split_conj; try assumption; lia).
Qed.

Lemma filter_archives_length (start_year end_year : option Z)
    (archives : list string) :
  forall filtered_archives kept,
    filter_archives urlparse_path now start_year end_year archives
                    filtered_archives = Ok kept ->
    (List.length kept
     <= List.length filtered_archives + List.length archives)%nat.
Proof.
  induction archives as [|arch rest IH]; intros acc kept; simpl.
  - intros H. injection H as <-. lia.
  - destruct (PyStr.int _) as [y|e]; simpl; [|discriminate].
    destruct (before_start start_year y).
    { intros H. apply IH in H. lia. }
    destruct (after_end end_year y).
    { intros H. apply IH in H. lia. }
    intros H. apply IH in H. rewrite length_app in H. simpl in H. lia.
Qed.

Lemma filter_archives_bad_year (start_year end_year : option Z)
    (archives : list string) :
  (exists arch e,
      In arch archives /\
      PyStr.int (fst (extract_date_from_url urlparse_path now arch))
      = Raise e) ->
  forall filtered_archives,
    filter_archives urlparse_path now start_year end_year archives
                    filtered_archives = Raise ValueError.
Proof.
  induction archives as [|arch rest IH]; intros (bad & e & Hin & Hbad) acc.
  - destruct Hin.
  - simpl.
    destruct (PyStr.int (fst (extract_date_from_url urlparse_path now arch)))
      as [y|e'] eqn:Hint; simpl.
    + assert (Hrest : exists arch0 e0,
                 In arch0 rest /\
                 PyStr.int (fst (extract_date_from_url urlparse_path now arch0))
                 = Raise e0).
      { destruct Hin as [<- | Hin]; [congruence|]. now exists bad, e. }
      destruct (before_start start_year y); [now apply IH|].
      destruct (after_end end_year y); now apply IH.
    + unfold PyStr.int in Hint.
      destruct (Nat.ltb _ _); [now injection Hint as <-|].
      destruct (match PyStr.strip_int _ with
                | EmptyString => _
                | String _ _ => _
                end); [discriminate|].
      now injection Hint as <-.
Qed.

Lemma count_games_grows (username : string) (start_year end_year : option Z)
    (entries : list (string * option ArchiveFile)) :
  forall total, total <= count_games username start_year end_year entries total.
Proof.
  induction entries as [|[filename content] rest IH]; intros total; simpl;
    [lia|].
  destruct (PyStr.startswith (username ++ "_") filename
            && PyText.endswith ".json" filename)%bool; [|apply IH].
  destruct (if (2 <=? List.length (PyStr.split "_" filename))%nat
            then _ else _) as [[|]|e]; try lia; [|apply IH].
  destruct content as [data|]; [|lia].
  specialize (IH (total + Z.of_nat (List.length (PyStr.get (games data) [])))).
  lia.
Qed.

(** X22: when [fetch_user_games] returns its statistics, the archives
    downloaded and the archives skipped add up to the archives found,
    which are at most the archives listed; one pause was made between
    consecutive archives and none after the last; the total of games is
    not negative; and when no archive was found nothing was counted and
    no file was added. *)
Theorem fetch_stats_accounting (username : string)
    (start_year end_year : option Z) (w w' : World) (stats : Stats) :
  fetch_user_games urlparse_path now archives_response archive_response
                   save_json_safely username start_year end_year w
  = (Ok stats, w') ->
  archives_downloaded stats + archives_skipped stats = archives_found stats /\
  0 <= archives_downloaded stats /\
  0 <= archives_skipped stats /\
  archives_found stats
  <= Z.of_nat (List.length
                 (fst (get_user_archives archives_response username w))) /\
  pauses w' = (pauses w + Nat.pred (Z.to_nat (archives_found stats)))%nat /\
  0 <= total_games stats /\
  (archives_found stats = 0 -> total_games stats = 0 /\ files w' = files w).
Proof.
  unfold fetch_user_games.
  destruct (get_user_archives archives_response username w)
    as [archives w1] eqn:Hlist.
  assert (Hw1 : files w1 = files w /\ pauses w1 = pauses w).
  { unfold get_user_archives in Hlist.
    destruct (archives_response _); injection Hlist as _ <-; now split. }
  destruct Hw1 as [Hfiles Hpauses].
  destruct (filter_archives urlparse_path now start_year end_year archives [])
    as [kept|e] eqn:Hkept; [|discriminate].
  apply filter_archives_length in Hkept. simpl in Hkept.
  destruct kept as [|first rest] eqn:Hk.
  - intros H. injection H as <- <-. simpl.
    split_conj; try lia; try (intros _; split); congruence.
  - rewrite <- Hk in *.
    destruct (download_all urlparse_path now archive_response save_json_safely
                username kept _ w1) as [stats1 w2] eqn:Hrun.
    apply (download_all_effect username kept _ w1 w1) in Hrun;
      [|apply added_by_refl].
    cbn [archives_found archives_downloaded archives_skipped total_games]
      in Hrun.
    destruct Hrun as (Hf & Ht & Hsum & Hd & Hs & Hp & _).
    intros H. injection H as <- <-.
    cbn [archives_found archives_downloaded archives_skipped total_games fst].
    pose proof (count_games_grows username start_year end_year (files w2)
                  (total_games stats1)) as Hcount.
    rewrite Hf, Nat2Z.id.
    split_conj; try lia.
    intros Hzero. rewrite Hk in Hzero. simpl in Hzero. lia.
Qed.

(** X23: [fetch_user_games] never removes or overwrites a file.  The
    directory it leaves holds the files it found, unchanged and in the
    same order, followed by the files it added; every added file is the
    answer to a request, saved under the name of its archive, a name that
    was not in the directory; apart from the archive list, every request
    is for an archive whose file was not in the directory; and when no
    name occurred twice in the directory, none does afterwards. *)
Theorem fetch_never_overwrites (username : string)
    (start_year end_year : option Z) (w : World) :
  let w' := snd (fetch_user_games urlparse_path now archives_response
                   archive_response save_json_safely username
                   start_year end_year w) in
  exists added urls,
    files w' = (files w ++ added)%list /\
    requested w' = (requested w ++ archive_list_url username :: urls)%list /\
    (forall name content,
        In (name, content) added ->
        file_exists name w = false /\
        exists url data,
          In url urls /\ name = filename_of username url /\
          archive_response url = Ok data /\ content = Some data /\
          save_json_safely name = true) /\
    (forall url, In url urls ->
                 file_exists (filename_of username url) w = false) /\
    (NoDup (map fst (files w)) -> NoDup (map fst (files w'))).
Proof.
  intros w'.
  set (w1 := request (archive_list_url username) w).
  assert (Hadd : added_by username w1 w').
  { unfold w', fetch_user_games, get_user_archives.
    fold (archive_list_url username). fold w1.
    destruct (archives_response (archive_list_url username)) as [entry|e];
      (destruct (filter_archives urlparse_path now start_year end_year _ [])
         as [kept|e'];
       [|apply added_by_refl]);
      (destruct kept as [|first rest] eqn:Hk; [apply added_by_refl|]);
      rewrite <- Hk;
      (destruct (download_all urlparse_path now archive_response
                   save_json_safely username kept _ w1)
         as [stats1 w2] eqn:Hrun);
      apply (download_all_effect username kept _ w1 w1) in Hrun;
      try apply added_by_refl; simpl; apply Hrun. }
  destruct Hadd as (added & urls & Hf & Hr & Hadded & Hurls & Hnd).
  exists added, urls.
  split; [exact Hf|].
  split; [rewrite Hr; unfold w1; simpl; now rewrite <- app_assoc|].
  split; [exact Hadded|]. split; [exact Hurls | exact Hnd].
Qed.

(** X24: when the archive list holds an address whose year component is
    not an integer, [fetch_user_games] raises [ValueError] after the
    request of the list: no archive is requested, no file is written and
    no pause is made. *)
Theorem bad_year_stops_fetch (username : string)
    (start_year end_year : option Z) (w : World)
    (archives : list string) (arch : string) (e : PyExn) :
  archives_response (archive_list_url username) = Ok (Some archives) ->
  In arch archives ->
  PyStr.int (fst (extract_date_from_url urlparse_path now arch)) = Raise e ->
  fetch_user_games urlparse_path now archives_response archive_response
                   save_json_safely username start_year end_year w
  = (Raise ValueError, request (archive_list_url username) w).
Proof.
  intros Hlist Hin Hbad.
  unfold fetch_user_games, get_user_archives.
  fold (archive_list_url username). rewrite Hlist. simpl.
  rewrite (filter_archives_bad_year start_year end_year archives);
    [reflexivity|].
  now exists arch, e.
Qed.

End FetcherExtras.

Module FetchRuns.

Definition february : string :=
  "https://api.chess.com/pub/player/hikaru/games/2024/02".

(** An address whose year component is not a number. *)
Definition latest : string :=
  "https://api.chess.com/pub/player/hikaru/games/latest/01".

(** The service lists two months for [hikaru] and one odd address for
    [bob]. *)
Definition listing (url : string) : PyResult (option (list string)) :=
  if String.eqb url (archive_list_url "hikaru")
  then Ok (Some [FetchSamples.january; february])
  else if String.eqb url (archive_list_url "bob")
  then Ok (Some [latest])
  else Raise OSError.

Definition answer (url : string) : PyResult ArchiveFile :=
  if String.eqb url february then Ok FileSamples.mixed_file
  else Raise OSError.

(** A directory that already holds the first month. *)
Definition start : World :=
  {| files := [("hikaru_2024_01.json", Some FileSamples.no_games_file)];
     requested := [];
     pauses := 0 |}.

Definition run (username : string) : PyResult Stats * World :=
  fetch_user_games FetchSamples.path_after_host FetchSamples.today
                   listing answer (fun _ => true)
                   username (Some 2020) (Some 2025) start.

End FetchRuns.

(** The run for [hikaru]: the first month is already there, the second is
    downloaded, with one pause between them. *)
Example fetch_run_sample :
  FetchRuns.run "hikaru"
  = (Ok {| archives_found := 2; archives_downloaded := 2;
           archives_skipped := 0; total_games := 3 |},
     {| files := [("hikaru_2024_01.json", Some FileSamples.no_games_file);
                  ("hikaru_2024_02.json", Some FileSamples.mixed_file)];
        requested := [archive_list_url "hikaru"; FetchRuns.february];
        pauses := 1 |}).
Proof. vm_compute. reflexivity. Qed.

(** X22, on the run for [hikaru]. *)
Lemma fetch_stats_accounting_witness :
  exists stats w',
    FetchRuns.run "hikaru" = (Ok stats, w') /\
    archives_downloaded stats + archives_skipped stats = archives_found stats.
Proof.
  destruct (FetchRuns.run "hikaru") as [[stats|e] w'] eqn:Hrun.
  - exists stats, w'. split; [reflexivity|].
    apply (fetch_stats_accounting _ _ _ _ _ _ _ _ _ _ _ Hrun).
  - vm_compute in Hrun. discriminate.
Defined.

(** X24, on the run for [bob]. *)
Lemma bad_year_stops_fetch_witness :
  FetchRuns.run "bob"
  = (Raise ValueError, request (archive_list_url "bob") FetchRuns.start).
Proof.
  apply (bad_year_stops_fetch FetchSamples.path_after_host FetchSamples.today
           FetchRuns.listing FetchRuns.answer (fun _ => true)
           "bob" (Some 2020) (Some 2025) FetchRuns.start
           [FetchRuns.latest] FetchRuns.latest ValueError).
  - reflexivity.
  - left. reflexivity.
  - reflexivity.
Defined.


(* ================================================================== *)
(** ** Time controls written as numbers *)
(* ================================================================== *)

(** Every character of [s] is a decimal digit. *)
Fixpoint all_digits (s : string) : bool :=
  match s with
  | EmptyString => true
  | String c rest => (PyStr.is_digit c && all_digits rest)%bool
  end.

(** The number a string of decimal digits denotes, after the digits read
    so far gave [acc]. *)
Fixpoint decimal_from (acc : Z) (s : string) : Z :=
  match s with
  | EmptyString => acc
  | String c rest =>
      decimal_from (10 * acc + Z.of_nat (nat_of_ascii c - 48)) rest
  end.

Definition decimal_value (s : string) : Z := decimal_from 0 s.

Lemma digits_aux_decimal (s : string) :
  forall (acc : Z) (prev_digit : bool),
    all_digits s = true ->
    s <> "" \/ prev_digit = true ->
    PyStr.digits_aux s acc prev_digit = Some (decimal_from acc s).
Proof.
  induction s as [|c rest IH]; intros acc prev Hall Hne; simpl.
  - destruct Hne as [Hne | ->]; [contradiction | reflexivity].
  - simpl in Hall. apply andb_true_iff in Hall. destruct Hall as [Hc Hrest].
    rewrite Hc. apply IH; [assumption | now right].
Qed.

Lemma digit_not_space (c : ascii) :
  PyStr.is_digit c = true -> PyStr.is_int_space c = false.
Proof.
  unfold PyStr.is_digit, PyStr.is_int_space. intros H.
  apply andb_true_iff in H. destruct H as [H1 H2].
  apply Nat.leb_le in H1. apply Nat.leb_le in H2.
  apply orb_false_iff. split.
  - apply andb_false_iff. right. apply Nat.leb_gt. lia.
  - apply Nat.eqb_neq. lia.
Qed.

Lemma digit_not_plus (c : ascii) :
  PyStr.is_digit c = true -> Ascii.eqb "+" c = false.
Proof.
  intros H. destruct (Ascii.eqb_spec "+" c) as [<-|]; [discriminate|reflexivity].
Qed.

Lemma digits_free_of_plus (s : string) :
  all_digits s = true -> PyText.free_of "+" s = true.
Proof.
  induction s as [|c rest IH]; cbn [PyText.free_of all_digits];
    [reflexivity|].
  intros H. apply andb_true_iff in H. destruct H as [Hc Hrest].
  rewrite (digit_not_plus c Hc), (IH Hrest). reflexivity.
Qed.

Lemma rev_string_twice (s : string) :
  forall acc, PyStr.rev_string (PyStr.rev_string s acc) "" = PyStr.rev_string acc s.
Proof.
  induction s as [|c rest IH]; intros acc; simpl; [reflexivity|].
  now rewrite IH.
Qed.

Lemma rev_string_digits (s : string) :
  forall acc,
    all_digits s = true -> all_digits acc = true ->
    all_digits (PyStr.rev_string s acc) = true.
Proof.
  induction s as [|c rest IH]; intros acc Hs Hacc; simpl; [assumption|].
  simpl in Hs. apply andb_true_iff in Hs. destruct Hs as [Hc Hrest].
  apply IH; [assumption|]. simpl. now rewrite Hc.
Qed.

Lemma rev_string_nonempty (s : string) :
  forall acc, s <> "" -> PyStr.rev_string s acc <> "".
Proof.
  induction s as [|c rest IH]; intros acc Hne; [contradiction|]. simpl.
  destruct rest as [|d rest']; [simpl; discriminate|].
  apply IH. discriminate.
Qed.

Lemma lstrip_digits (s : string) :
  all_digits s = true -> PyStr.lstrip_int s = s.
Proof.
  destruct s as [|c rest]; simpl; [reflexivity|].
  intros H. apply andb_true_iff in H. destruct H as [Hc _].
  now rewrite (digit_not_space c Hc).
Qed.

Lemma strip_digits (s : string) :
  all_digits s = true -> PyStr.strip_int s = s.
Proof.
  intros Hs. unfold PyStr.strip_int.
  rewrite (lstrip_digits s Hs).
  rewrite (lstrip_digits (PyStr.rev_string s ""));
    [|now apply rev_string_digits].
  now rewrite rev_string_twice.
Qed.

Lemma digit_count_digits (s : string) :
  all_digits s = true -> PyStr.digit_count s = String.length s.
Proof.
  induction s as [|c rest IH]; cbn [all_digits PyStr.digit_count String.length];
    [reflexivity|].
  intros H. apply andb_true_iff in H. destruct H as [Hc Hrest].
  rewrite Hc, (IH Hrest). reflexivity.
Qed.

Lemma int_of_digits (s : string) :
  all_digits s = true -> s <> "" ->
  (String.length s <= PyStr.max_str_digits)%nat ->
  PyStr.int s = Ok (decimal_value s).
Proof.
  intros Hs Hne Hlen. unfold PyStr.int. rewrite (strip_digits s Hs).
  rewrite (digit_count_digits s Hs).
  replace (Nat.ltb PyStr.max_str_digits (String.length s)) with false
    by (symmetry; apply Nat.ltb_ge; exact Hlen).
  cbv beta iota zeta.
  assert (Hparse : PyStr.digits_aux s 0 false = Some (decimal_value s)).
  { apply digits_aux_decimal; [assumption | now left]. }
  destruct s as [|c rest]; [contradiction|].
  assert (Hc : PyStr.is_digit c = true).
  { simpl in Hs. now apply andb_true_iff in Hs. }
  destruct c as [[] [] [] [] [] [] [] []]; try discriminate Hc;
    cbv beta iota; rewrite Hparse; reflexivity.
Qed.

(** X25: a time control written as a number of seconds of at most 4300
    digits (the longest decimal literal [int] converts), alone or followed
    by [+] and an increment, is classified by that number: bullet up to
    180, blitz up to 600, rapid above. *)
Theorem numeric_time_control (base increment : string) :
  all_digits base = true -> base <> "" ->
  (String.length base <= 4300)%nat ->
  let seconds := decimal_value base in
  let game_type_of :=
    if seconds <=? 180 then "bullet"
    else if seconds <=? 600 then "blitz" else "rapid" in
  classify_time_control base = game_type_of /\
  classify_time_control (base ++ "+" ++ increment) = game_type_of.
Proof.
  intros Hd Hne Hlen seconds game_type_of.
  assert (Hfree : PyText.free_of "+" base = true)
    by now apply digits_free_of_plus.
  unfold classify_time_control.
  rewrite !split_is_split_char.
  change (base ++ "+" ++ increment) with (base ++ String "+" increment).
  rewrite split_char_app, (split_char_free "+" base Hfree). simpl hd.
  rewrite (int_of_digits base Hd Hne Hlen). simpl.
  fold seconds. split; reflexivity.
Qed.

(** X25, on the time control of ten minutes with five seconds added. *)
Lemma numeric_time_control_witness :
  classify_time_control "600" = "blitz" /\
  classify_time_control "600+5" = "blitz".
Proof.
  assert (Hne : "600" <> "") by discriminate.
  assert (Hlen : (String.length "600" <= 4300)%nat) by (cbn [String.length]; lia).
  exact (numeric_time_control "600" "5" eq_refl Hne Hlen).
Defined.
